(** * withingsReport: the sleep-data normalisation and nightly analytics core

    A shallow embedding of [src/lib/report-generator.ts]: the summary
    normaliser [processSummaryData], the epoch flattener [processEpochData],
    the guard of [generateReport], and the report's client-side analytics
    ([findWakeEpisodes], [mins_from_noon_js], the timing records of
    [renderHorizontalSleepTimingPlot], the value extraction of
    [renderMetricsTable] and [renderSummaryStats], and the two severity
    classifiers).

    Numbers are IEEE-754 binary64 values ([PrimFloat.float]), which is what a
    JavaScript number is.  Quantities the program only ever holds as integers
    (parsed timestamps, [Date] time values in milliseconds, hours and minutes
    of a wall clock) are [Z]. *)

From Stdlib Require Import ZArith List String Ascii Bool Lia QArith DecimalString Sorted
  Permutation.
From Stdlib Require Import Floats Uint63.
Import ListNotations.

#[local] Set Warnings "-register-all".

Local Open Scope string_scope.
Local Open Scope Z_scope.

(** ** JavaScript values *)

Module Js.

(** The values the report code manipulates.  An object is the list of its own
    enumerable properties in enumeration order; an array is the object whose
    keys are its indices.  A [Date] carries its time value in milliseconds,
    [None] for an invalid date. *)
Inductive value : Type :=
| VUndefined
| VNull
| VBool (b : bool)
| VNum (x : float)
| VStr (s : string)
| VDate (t : option Z)
| VObj (props : list (string * value)).

Definition props := list (string * value).

Inductive jstype := TUndefined | TObject | TBoolean | TNumber | TString.

Definition typeof (v : value) : jstype :=
  match v with
  | VUndefined => TUndefined
  | VNull => TObject
  | VBool _ => TBoolean
  | VNum _ => TNumber
  | VStr _ => TString
  | VDate _ => TObject
  | VObj _ => TObject
  end.

Definition is_number (v : value) : bool :=
  match v with VNum _ => true | _ => false end.

Definition is_string (v : value) : bool :=
  match v with VStr _ => true | _ => false end.

Definition is_object (v : value) : bool :=
  match typeof v with TObject => true | _ => false end.

Definition is_undefined (v : value) : bool :=
  match v with VUndefined => true | _ => false end.

Definition is_null (v : value) : bool :=
  match v with VNull => true | _ => false end.

(** ToBoolean. *)
Definition truthy (v : value) : bool :=
  match v with
  | VUndefined | VNull => false
  | VBool b => b
  | VNum x => negb (PrimFloat.is_zero x || PrimFloat.is_nan x)
  | VStr s => negb (String.eqb s "")
  | VDate _ | VObj _ => true
  end.

(** [a || b]. *)
Definition or_else (a b : value) : value := if truthy a then a else b.

(** Property read [o[k]] on own properties; [undefined] when absent or when
    [o] has no own properties. *)
Fixpoint lookup (k : string) (ps : props) : value :=
  match ps with
  | [] => VUndefined
  | (k', v) :: rest => if String.eqb k k' then v else lookup k rest
  end.

Definition get (o : value) (k : string) : value :=
  match o with
  | VObj ps => lookup k ps
  | _ => VUndefined
  end.

(** Own-property tables with other contents (the [grouped] and
    [nightIntervals] objects of the report page) share the key discipline. *)
Fixpoint find_key {A : Type} (k : string) (ps : list (string * A)) : option A :=
  match ps with
  | [] => None
  | (k', v) :: rest => if String.eqb k k' then Some v else find_key k rest
  end.

Fixpoint has_key {A : Type} (k : string) (ps : list (string * A)) : bool :=
  match ps with
  | [] => false
  | (k', _) :: rest => String.eqb k k' || has_key k rest
  end.

(** *** Decimal strings and array-index keys *)

Definition digit_of (c : ascii) : option Z :=
  let n := Z.of_N (N_of_ascii c) in
  if (48 <=? n) && (n <=? 57) then Some (n - 48) else None.

Fixpoint digits_prefix (s : string) (acc : option Z) : option Z :=
  match s with
  | EmptyString => acc
  | String c rest =>
      match digit_of c with
      | Some d =>
          digits_prefix rest (Some (match acc with Some a => 10 * a + d | None => d end))
      | None => acc
      end
  end.

Fixpoint all_digits (s : string) : bool :=
  match s with
  | EmptyString => true
  | String c rest =>
      match digit_of c with Some _ => all_digits rest | None => false end
  end.

(** A canonical array index: a decimal numeral without leading zero whose
    value is below 2^32 - 1.  Such keys are enumerated first, ascending. *)
Definition array_index (k : string) : option Z :=
  match k with
  | EmptyString => None
  | String c rest =>
      if all_digits k
         && (negb (Ascii.eqb c "0"%char) || String.eqb rest "")
      then match digits_prefix k None with
           | Some n => if n <? 4294967295 then Some n else None
           | None => None
           end
      else None
  end.

(** Where a new key [k] lands among the existing own properties: an index
    key goes before the first larger index key or the first string key; a
    string key goes last. *)
Fixpoint insert_new {A : Type} (k : string) (v : A) (ps : list (string * A))
  : list (string * A) :=
  match array_index k with
  | None => (ps ++ [(k, v)])%list
  | Some n =>
      match ps with
      | [] => [(k, v)]
      | (k', v') :: rest =>
          match array_index k' with
          | Some n' =>
              if n <? n' then (k, v) :: ps else (k', v') :: insert_new k v rest
          | None => (k, v) :: ps
          end
      end
  end.

Fixpoint replace {A : Type} (k : string) (v : A) (ps : list (string * A))
  : list (string * A) :=
  match ps with
  | [] => []
  | (k', v') :: rest =>
      if String.eqb k k' then (k', v) :: rest else (k', v') :: replace k v rest
  end.

(** Property write [o[k] = v] (also one entry of an object literal or of a
    spread): an existing key keeps its place. *)
Definition set {A : Type} (k : string) (v : A) (ps : list (string * A))
  : list (string * A) :=
  if has_key k ps then replace k v ps else insert_new k v ps.

(** [delete o[k]]. *)
Fixpoint delete (k : string) (ps : props) : props :=
  match ps with
  | [] => []
  | (k', v') :: rest =>
      if String.eqb k k' then rest else (k', v') :: delete k rest
  end.

(** [{ ...a, ...b }] continued: the entries of [qs] written in order onto
    [ps]. *)
Definition assign (ps qs : props) : props :=
  fold_left (fun acc kv => set (fst kv) (snd kv) acc) qs ps.

Definition nat_key (n : nat) : string :=
  NilEmpty.string_of_uint (Nat.to_uint n).

Fixpoint string_entries (i : nat) (s : string) : props :=
  match s with
  | EmptyString => []
  | String c rest => (nat_key i, VStr (String c "")) :: string_entries (S i) rest
  end.

(** The own enumerable properties a spread [...v] copies. *)
Definition own_entries (v : value) : props :=
  match v with
  | VObj ps => ps
  | VStr s => string_entries 0 s
  | _ => []
  end.

(** [Object.keys(v)] for an object value. *)
Definition keys (v : value) : list string := map fst (own_entries v).

(** *** parseInt(s, 10) *)

Definition is_space (c : ascii) : bool :=
  let n := N_of_ascii c in
  ((9 <=? n) && (n <=? 13) || (n =? 32))%N.

Fixpoint skip_spaces (s : string) : string :=
  match s with
  | String c rest => if is_space c then skip_spaces rest else s
  | EmptyString => s
  end.

(** [parseInt(s, 10)]: leading white space is skipped, one sign is read, then
    the longest run of decimal digits; [None] is [NaN] (no digit).  The
    integer is exact (the program's timestamps are far below 2^53). *)
Definition parseInt10 (s : string) : option Z :=
  match skip_spaces s with
  | String "-"%char rest =>
      match digits_prefix rest None with Some n => Some (- n) | None => None end
  | String "+"%char rest => digits_prefix rest None
  | t => digits_prefix t None
  end.

(** SameValueZero, the key equality of [Map]: numbers by value with [NaN]
    equal to itself and the two zeros identified; objects are compared by
    identity, which distinct parsed records never share. *)
Definition same_value_zero (a b : value) : bool :=
  match a, b with
  | VUndefined, VUndefined => true
  | VNull, VNull => true
  | VBool x, VBool y => Bool.eqb x y
  | VNum x, VNum y => PrimFloat.eqb x y || (PrimFloat.is_nan x && PrimFloat.is_nan y)
  | VStr x, VStr y => String.eqb x y
  | _, _ => false
  end.

End Js.

Import Js.

(** ** The runtime

    What the JavaScript runtime provides and this repository only calls:
    [Number(s)] on a string, [Number(o)] on an object (through its primitive
    value), [String(v)], [Math.round], [new Date(s).getTime() / 1000] on a
    date string ([NaN] when the string is no date), the time value of
    [new Date(n)] for a number and of [new Date(v)] for a parsed CSV cell,
    [JSON.parse] ([None] when it throws), [JSON.stringify], and
    [Intl.DateTimeFormat]: its time-zone database (for a zone name, the
    offset in milliseconds of the zone's wall clock from UTC at an instant,
    [None] for a name rejected with a [RangeError]), the zone used when none
    is given, and the day-and-month label of an instant in a zone. *)
Class Runtime : Type := {
  StringToNumber : string -> float;
  ObjectToNumber : value -> float;
  ToString : value -> string;
  MathRound : float -> float;
  DateParseSeconds : string -> float;
  TimeClip : float -> option Z;
  DateOfValue : value -> option Z;
  JSONparse : string -> option value;
  JSONstringify : value -> string;
  zoneOffset : string -> option (Z -> Z);
  defaultZone : Z -> Z;
  formatDayMonth : Z -> (Z -> Z) -> string
}.

(** A runtime for closed examples: it knows no zone besides UTC, converts no
    string or object to a number and parses no date. *)
Definition utc_runtime : Runtime := {|
  StringToNumber := fun _ => PrimFloat.nan;
  ObjectToNumber := fun _ => PrimFloat.nan;
  ToString := fun v => match v with VStr s => s | _ => "" end;
  MathRound := fun x => x;
  DateParseSeconds := fun _ => PrimFloat.nan;
  TimeClip := fun _ => None;
  DateOfValue := fun _ => None;
  JSONparse := fun _ => None;
  JSONstringify := fun _ => "";
  zoneOffset := fun _ => None;
  defaultZone := fun _ => 0;
  formatDayMonth := fun _ _ => ""
|}.

Local Open Scope float_scope.

(** [Number(v)]. *)
Definition ToNumber {rt : Runtime} (v : value) : float :=
  match v with
  | VUndefined => PrimFloat.nan
  | VNull => PrimFloat.zero
  | VBool b => if b then PrimFloat.one else PrimFloat.zero
  | VNum x => x
  | VStr s => StringToNumber s
  | VDate _ | VObj _ => ObjectToNumber v
  end.

(** [isNaN(v)]. *)
Definition isNaN {rt : Runtime} (v : value) : bool :=
  PrimFloat.is_nan (ToNumber v).

(** ** Summary Normalizer: [processSummaryData] *)

Module Normalizer.
Section SummaryNormalizer.

Context {rt : Runtime}.

(** [{ ...rawRow, ...(rawRow.data || {}) }] followed by [delete row.data]. *)
Definition mergedRow (rawRow : props) : props :=
  Js.delete "data"
    (assign (assign [] rawRow)
            (own_entries (or_else (lookup "data" rawRow) (VObj [])))).

(** The date handling of one end of the night; [date] is [row.startdate]
    (or [row.enddate]) and [wdate] the prefixed column. *)
Definition dateNum (date wdate : value) : float :=
  match date with
  | VStr s => DateParseSeconds s
  | _ =>
      if truthy wdate && is_string wdate
      then match wdate with VStr s => DateParseSeconds s | _ => PrimFloat.nan end
      else match date with VNum x => x | _ => PrimFloat.nan end
  end.

Definition date_utc (num : float) : value :=
  if negb (PrimFloat.is_nan num) then VDate (TimeClip (num * 1000)) else VDate None.

Definition total_sleep_time_hours (row : props) : value :=
  match lookup "total_sleep_time" row with
  | VNum x => VNum (x / 3600)
  | _ => VNull
  end.

Definition sleep_efficiency_percent (row : props) : value :=
  match lookup "sleep_efficiency" row with
  | VNum x => VNum (x * 100)
  | _ => VNull
  end.

Definition snoring_minutes (row : props) : value :=
  match lookup "snoring" row with
  | VNum x => VNum (x / 60)
  | _ => VNull
  end.

Definition _raw_apnea_hypopnea_index (row : props) : float :=
  if isNaN (lookup "apnea_hypopnea_index" row)
  then (- 1)
  else ToNumber (lookup "apnea_hypopnea_index" row).

Definition apnea_hypopnea_index (row : props) : value :=
  if 0 <=? _raw_apnea_hypopnea_index row
  then VNum (_raw_apnea_hypopnea_index row)
  else VNull.

Definition night_events_parsed (row : props) : value :=
  match lookup "night_events" row with
  | VStr s => match JSONparse s with Some v => v | None => VUndefined end
  | v => v
  end.

(** The body of the [map] callback. *)
Definition processSummaryRow (label : string) (rawRow : props) : props :=
  let row := mergedRow rawRow in
  let startdateNum := dateNum (lookup "startdate" row) (lookup "w_startdate" row) in
  let enddateNum := dateNum (lookup "enddate" row) (lookup "w_enddate" row) in
  assign row
    [ ("startdate", VNum startdateNum);
      ("enddate", VNum enddateNum);
      ("lab_id", VStr label);
      ("startdate_utc", date_utc startdateNum);
      ("enddate_utc", date_utc enddateNum);
      ("total_sleep_time_hours", total_sleep_time_hours row);
      ("sleep_efficiency_percent", sleep_efficiency_percent row);
      ("snoring_minutes", snoring_minutes row);
      ("apnea_hypopnea_index", apnea_hypopnea_index row);
      ("night_events", night_events_parsed row);
      ("sleep_duration_min", total_sleep_time_hours row) ].

Definition processSummaryData (summarySeries : list props) (label : string)
  : list props :=
  map (processSummaryRow label) summarySeries.

End SummaryNormalizer.
End Normalizer.

Local Close Scope float_scope.

(** ** Epoch Flattener: [processEpochData] *)

Module Flattener.

(** One element of [epochRecords]: the night it belongs to and its segments,
    each segment an object holding [state] and the sparse metric series. *)
Record SleepEpochRecord : Type := {
  sleep_id : value;
  series : list props
}.

(** One flattened row.  [metrics] holds the entries the loop over
    [dataFields] writes, in that order. *)
Record ProcessedEpoch : Type := {
  id : value;
  timezone : value;
  timestamp : Z;
  datetime_utc : option Z;
  state : value;
  night_events : value;
  metrics : props
}.

(** What [summaryMap] stores per night id. *)
Record SummaryInfo : Type := {
  info_timezone : value;
  info_night_events : value
}.

Definition dataFields : list string :=
  [ "hr"; "rr"; "snoring"; "sdnn_1"; "rmssd"; "mvt_score";
    "chest_movement_rate"; "withings_index"; "breathing_sounds" ].

Definition includes (k : string) (l : list string) : bool :=
  existsb (String.eqb k) l.

(** [new Map(summaryData.map(s => [s.id, {...}]))]: the entries in order. *)
Definition summaryMap (summaryData : list props) : list (value * SummaryInfo) :=
  map (fun s => (lookup "id" s,
                 {| info_timezone := lookup "timezone" s;
                    info_night_events := lookup "night_events" s |}))
      summaryData.

(** [Map.prototype.get] on a map built from that entry list: a later entry
    with the same key has overwritten an earlier one. *)
Fixpoint map_get (k : value) (entries : list (value * SummaryInfo))
  : option SummaryInfo :=
  match entries with
  | [] => None
  | (k', v) :: rest =>
      match map_get k rest with
      | Some later => Some later
      | None => if same_value_zero k' k then Some v else None
      end
  end.

(** [new Date(ms)] for an integral [ms]. *)
Definition date_of_ms (ms : Z) : option Z :=
  if Z.abs ms <=? 8640000000000000 then Some ms else None.

(** The test of the [for (const candidate in seriesItem)] loop. *)
Definition isReference (seriesItem : props) (candidate : string) : bool :=
  includes candidate dataFields
  && is_object (lookup candidate seriesItem)
  && negb (is_null (lookup candidate seriesItem))
  && (0 <? List.length (keys (lookup candidate seriesItem)))%nat.

(** The loop itself: the first own key, in enumeration order, that passes. *)
Definition refField (seriesItem : props) : option string :=
  find (isReference seriesItem) (map fst seriesItem).

(** The value written to [epochRow[field]]. *)
Definition fieldValue (seriesItem : props) (tsStr field : string) : value :=
  let fieldData := lookup field seriesItem in
  if truthy fieldData && is_object fieldData
     && negb (is_undefined (get fieldData tsStr))
  then get fieldData tsStr
  else VNull.

(** The body of [for (const tsStr of timestamps)]: nothing for a key that
    [parseInt] does not read. *)
Definition epochRow (sid : value) (summaryInfo : SummaryInfo)
           (seriesItem : props) (tsStr : string) : list ProcessedEpoch :=
  match parseInt10 tsStr with
  | None => []
  | Some ts =>
      [ {| id := sid;
           timezone := info_timezone summaryInfo;
           timestamp := ts;
           datetime_utc := date_of_ms (ts * 1000);
           state := lookup "state" seriesItem;
           night_events := info_night_events summaryInfo;
           metrics := map (fun field => (field, fieldValue seriesItem tsStr field))
                          dataFields |} ]
  end.

(** The body of [for (const seriesItem of record.series)]. *)
Definition processSeriesItem (sid : value) (summaryInfo : SummaryInfo)
           (seriesItem : props) : list ProcessedEpoch :=
  match refField seriesItem with
  | None => []
  | Some r =>
      if negb (truthy (VStr r)) || negb (truthy (lookup r seriesItem))
      then []
      else flat_map (epochRow sid summaryInfo seriesItem)
                    (keys (lookup r seriesItem))
  end.

(** The body of [for (const record of epochRecords)]. *)
Definition processEpochRecord (summaryData : list props)
           (record : SleepEpochRecord) : list ProcessedEpoch :=
  match map_get (sleep_id record) (summaryMap summaryData) with
  | None => []
  | Some summaryInfo =>
      flat_map (processSeriesItem (sleep_id record) summaryInfo) (series record)
  end.

(** [epochRecords] is [None] when the caller passes [null] or [undefined]. *)
Definition processEpochData (epochRecords : option (list SleepEpochRecord))
           (summaryData : list props) : list ProcessedEpoch :=
  match epochRecords with
  | None => []
  | Some records => flat_map (processEpochRecord summaryData) records
  end.

End Flattener.

(** ** Report generation: [generateReport] *)

(** A call either returns or throws an [Error] with a message. *)
Inductive result (A : Type) : Type :=
| Ok (a : A)
| Throw (message : string).
Arguments Ok {A} a.
Arguments Throw {A} message.

Module Generator.
Section GenerateReport.

Context {rt : Runtime}.

(** The data the page is assembled from.  The HTML, style sheet and chart
    descriptions that the function builds around it are string templating
    and are left out. *)
Record Report : Type := {
  report_label : string;
  hasEpochData : bool;
  summaryDataForCsv : list props;
  summary_csv_columns : list string;
  epoch_csv_rows : list Flattener.ProcessedEpoch;
  night_plot_data : list (string * list Flattener.ProcessedEpoch);
  night_meta_json : list (string * value)
}.

Definition stringifyEvents (row : props) : props :=
  let newRow := assign [] row in
  if is_object (lookup "night_events" newRow)
     && negb (is_null (lookup "night_events" newRow))
  then Js.set "night_events"
              (VStr (JSONstringify (lookup "night_events" newRow))) newRow
  else newRow.

(** [epochData.forEach(e => { ...epochDataById[e.id].push(e) })]. *)
Definition epochDataById (epochData : list Flattener.ProcessedEpoch)
  : list (string * list Flattener.ProcessedEpoch) :=
  fold_left
    (fun byId e =>
       let k := ToString (Flattener.id e) in
       match find_key k byId with
       | Some rows => Js.set k (rows ++ [e])%list byId
       | None => Js.set k [e] byId
       end)
    epochData [].

(** The nights that get a nightly plot: those whose summary row, found by
    id, has a truthy time zone. *)
Definition plottedNights (summaryData : list props)
           (byId : list (string * list Flattener.ProcessedEpoch))
  : list (string * list Flattener.ProcessedEpoch) :=
  fold_left
    (fun plots entry =>
       match find (fun s => String.eqb (ToString (lookup "id" s)) (fst entry))
                  summaryData with
       | Some summaryRow =>
           if truthy (lookup "timezone" summaryRow)
           then Js.set (fst entry) (snd entry) plots
           else plots
       | None => plots
       end)
    byId [].

Definition nightMeta (summaryData : list props) : list (string * value) :=
  fold_left
    (fun meta row => Js.set (ToString (lookup "id" row)) (lookup "lab_id" row) meta)
    summaryData [].

(** [epochData] is [None] when the optional argument is not given. *)
Definition generateReport (label : string) (summaryData : list props)
           (epochData : option (list Flattener.ProcessedEpoch))
           (applyTimezone : bool) : result Report :=
  if (List.length summaryData =? 0)%nat
  then Throw "No data found for this user to generate a report."
  else
    let rows := match epochData with Some es => es | None => [] end in
    let has := (0 <? List.length rows)%nat in
    Ok {| report_label := label;
          hasEpochData := has;
          summaryDataForCsv := map stringifyEvents summaryData;
          summary_csv_columns :=
            map fst (match summaryData with s :: _ => s | [] => [] end);
          epoch_csv_rows := if has then rows else [];
          night_plot_data :=
            if has then plottedNights summaryData (epochDataById rows) else [];
          night_meta_json := if has then nightMeta summaryData else [] |}.

End GenerateReport.
End Generator.

(** ** The report page: loaders and the Wake-Episode Detector *)

(** [Array.prototype.sort] with a comparator that subtracts integer keys:
    ascending, and stable. *)
Fixpoint insert_by {A : Type} (key : A -> Z) (x : A) (l : list A) : list A :=
  match l with
  | [] => [x]
  | y :: rest => if key y <=? key x then y :: insert_by key x rest else x :: l
  end.

Definition sort_by {A : Type} (key : A -> Z) (l : list A) : list A :=
  fold_left (fun sorted x => insert_by key x sorted) l [].

(** Ascending order of the keys, as that comparator means it. *)
Definition ascending {A : Type} (key : A -> Z) (l : list A) : Prop :=
  StronglySorted (fun a b => key a <= key b) l.

Module Client.

(** A summary row as the page holds it after loading: the CSV columns and
    the two [Date] objects the loader adds.  The loader keeps a row only when
    both dates parse, so both are valid. *)
Record SummaryRow : Type := {
  columns : props;
  startdate_utc : Z;
  enddate_utc : Z
}.

(** [row[k]]: the two dates overwrite CSV columns of the same name. *)
Definition field (row : SummaryRow) (k : string) : value :=
  if String.eqb k "startdate_utc" then VDate (Some (startdate_utc row))
  else if String.eqb k "enddate_utc" then VDate (Some (enddate_utc row))
  else lookup k (columns row).

(** An epoch row as the page holds it: [timestamp] is the CSV column, a whole
    number of seconds, and [date] is [new Date(row.timestamp * 1000)]. *)
Record EpochRow : Type := {
  id : value;
  state : value;
  timestamp : Z;
  date : Z
}.

(** [nightIntervals[id]]. *)
Record Night : Type := {
  night_start : Z;
  night_end : Z
}.

(** An element of [results]; [durationSec] is the quotient by 1000, kept
    exact. *)
Record WakeEpisode : Type := {
  ep_id : string;
  ep_start : Z;
  ep_end : Z;
  durationSec : Q
}.

Section Page.

Context {rt : Runtime}.

(** The page constants written into the script by [generateReport]. *)
Variable REPORT_APPLY_TIMEZONE : bool.

(** *** Loaders *)

Definition parseDate (val : value) : option Z :=
  if negb (truthy val) then None else DateOfValue val.

Definition loadSummaryRow (row : props) : list SummaryRow :=
  match parseDate (or_else (lookup "w_startdate" row) (lookup "startdate_utc" row)),
        parseDate (or_else (lookup "w_enddate" row) (lookup "enddate_utc" row)) with
  | Some s, Some e => [ {| columns := row; startdate_utc := s; enddate_utc := e |} ]
  | _, _ => []
  end.

Definition loadSummary (data : list props) : list SummaryRow :=
  flat_map loadSummaryRow data.

(** One parsed line of the epoch CSV; a line with a falsy id or timestamp is
    filtered out. *)
Definition loadEpochRow (rid rstate : value) (rtimestamp : Z) : list EpochRow :=
  if truthy rid && negb (rtimestamp =? 0)
  then [ {| id := rid; state := rstate; timestamp := rtimestamp;
            date := rtimestamp * 1000 |} ]
  else [].

(** *** [findWakeEpisodes] *)

(** [r.state === 0]. *)
Definition isAwake (r : EpochRow) : bool :=
  match state r with
  | VNum x => PrimFloat.eqb x PrimFloat.zero
  | _ => false
  end.

(** Clipping to the night and the ten-minute test, as written in both places
    an episode is closed; the result is what gets pushed. *)
Definition closeEpisode (nid : string) (night : Night)
           (episodeStart episodeEnd : Z) : list WakeEpisode :=
  let clippedStart :=
    if episodeStart <? night_start night then night_start night else episodeStart in
  let clippedEnd :=
    if episodeEnd >? night_end night then night_end night else episodeEnd in
  let duration := ((clippedEnd - clippedStart) # 1000)%Q in
  if Qle_bool (600 # 1) duration
  then [ {| ep_id := nid; ep_start := clippedStart; ep_end := clippedEnd;
            durationSec := duration |} ]
  else [].

(** The [for] loop from its second iteration on, followed by the check after
    the loop.  [start] is the loop variable, [prev] is [rows[i - 1]], which at
    the end of the loop is the last row. *)
Fixpoint scanRows (nid : string) (night : Night) (start : option EpochRow)
         (prev : EpochRow) (rows : list EpochRow) : list WakeEpisode :=
  match rows with
  | [] =>
      match start with
      | Some s => closeEpisode nid night (date s) (date prev)
      | None => []
      end
  | r :: rest =>
      if isAwake r
      then scanRows nid night (match start with Some s => Some s | None => Some r end)
                    r rest
      else match start with
           | Some s =>
               (closeEpisode nid night (date s) (date prev)
                ++ scanRows nid night None r rest)%list
           | None => scanRows nid night None r rest
           end
  end.

(** The whole scan of one night's sorted rows.  In the first iteration
    [start] is still null, so the row only opens a run when it is awake. *)
Definition scanNight (nid : string) (night : Night) (rows : list EpochRow)
  : list WakeEpisode :=
  match rows with
  | [] => []
  | r :: rest => scanRows nid night (if isAwake r then Some r else None) r rest
  end.

(** [grouped]: rows by night id, keys in enumeration order. *)
Definition grouped (data : list EpochRow) : list (string * list EpochRow) :=
  fold_left
    (fun g row =>
       let k := ToString (id row) in
       match find_key k g with
       | Some rows => Js.set k (rows ++ [row])%list g
       | None => Js.set k [row] g
       end)
    data [].

Definition nightIntervals (summaryData : list SummaryRow) : list (string * Night) :=
  fold_left
    (fun m d =>
       Js.set (ToString (or_else (field d "w_id") (field d "id")))
              {| night_start := startdate_utc d; night_end := enddate_utc d |} m)
    summaryData [].

Definition findWakeEpisodes (data : list EpochRow) (summaryData : list SummaryRow)
  : list WakeEpisode :=
  if (List.length data =? 0)%nat then []
  else
    flat_map
      (fun entry =>
         match find_key (fst entry) (nightIntervals summaryData) with
         | None => []
         | Some night => scanNight (fst entry) night (sort_by timestamp (snd entry))
         end)
      (grouped data).

(** *** Statistics: [renderSummaryStats] and [renderMetricsTable] *)

Definition float_of_nat (n : nat) : float :=
  PrimFloat.of_uint63 (Uint63.of_Z (Z.of_nat n)).

(** [arr.length > 0 ? arr.reduce((a, b) => a + b, 0) / arr.length : 0]. *)
Definition mean (arr : list float) : float :=
  if (0 <? List.length arr)%nat
  then PrimFloat.div (fold_left PrimFloat.add arr PrimFloat.zero)
                     (float_of_nat (List.length arr))
  else PrimFloat.zero.

(** [d.w_<name> || d.<name>], the extraction of the headline statistics. *)
Definition headlineValue (name : string) (d : SummaryRow) : value :=
  or_else (field d ("w_" ++ name)) (field d name).

Definition notNaN (x : float) : bool := negb (PrimFloat.is_nan x).

(** The four lists [renderSummaryStats] aggregates.  Dividing or multiplying
    converts the extracted value to a number first; the filter then only
    removes [NaN]. *)
Definition durations (data : list SummaryRow) : list float :=
  filter notNaN
    (map (fun d => PrimFloat.div (ToNumber (headlineValue "total_sleep_time" d)) 3600%float)
         data).

Definition efficiencies (data : list SummaryRow) : list float :=
  filter notNaN
    (map (fun d => PrimFloat.mul (ToNumber (headlineValue "sleep_efficiency" d)) 100%float)
         data).

Definition ahis (data : list SummaryRow) : list value :=
  filter (fun v => negb (is_null v) && negb (isNaN v))
         (map (headlineValue "apnea_hypopnea_index") data).

Definition snores (data : list SummaryRow) : list float :=
  filter notNaN
    (map (fun d => PrimFloat.div (ToNumber (headlineValue "snoring" d)) 60%float) data).

Definition ALL_DATA_FIELDS : list string :=
  [ "total_timeinbed"; "total_sleep_time"; "asleepduration";
    "lightsleepduration"; "remsleepduration"; "deepsleepduration";
    "sleep_efficiency"; "sleep_latency"; "wakeup_latency";
    "wakeupduration"; "waso";
    "nb_rem_episodes"; "apnea_hypopnea_index"; "withings_index";
    "durationtosleep"; "durationtowakeup"; "out_of_bed_count";
    "hr_average"; "hr_min"; "hr_max";
    "rr_average"; "rr_min"; "rr_max";
    "snoring"; "snoringepisodecount"; "sleep_score";
    "night_events"; "mvt_score_avg"; "mvt_active_duration";
    "chest_movement_rate_average"; "chest_movement_rate_min";
    "chest_movement_rate_max";
    "breathing_sounds"; "breathing_sounds_episode_count" ].

Definition DURATION_FIELDS_IN_SECONDS : list string :=
  [ "total_timeinbed"; "total_sleep_time"; "asleepduration";
    "lightsleepduration"; "remsleepduration"; "deepsleepduration";
    "sleep_latency"; "wakeup_latency"; "wakeupduration"; "waso";
    "durationtosleep"; "durationtowakeup"; "snoring"; "mvt_active_duration" ].

Definition EFFICIENCY_FIELDS : list string := [ "sleep_efficiency" ].

Definition fieldDisplayNameMap : list (string * string) :=
  [ ("total_timeinbed", "Total Time in Bed (hours)");
    ("total_sleep_time", "Total Sleep Time (hours)");
    ("asleepduration", "Asleep Duration (hours)");
    ("lightsleepduration", "Light Sleep (hours)");
    ("remsleepduration", "REM Sleep (hours)");
    ("deepsleepduration", "Deep Sleep (hours)");
    ("sleep_efficiency", "Sleep Efficiency (%)");
    ("sleep_latency", "Time to Fall Asleep (minutes)");
    ("wakeup_latency", "Time to Wake Up (minutes)");
    ("wakeupduration", "Wakeup Duration (minutes)");
    ("wakeupcount", "Wakeups (count)");
    ("waso", "Wake After Sleep Onset (WASO) (minutes)");
    ("nb_rem_episodes", "REM Episodes (count)");
    ("apnea_hypopnea_index", "Apnea-Hypopnea Index (events/hour)");
    ("withings_index", "Withings Sleep Index");
    ("durationtosleep", "Time to Fall Asleep (minutes)");
    ("durationtowakeup", "Time to Wake Up (minutes)");
    ("out_of_bed_count", "Out of Bed (count)");
    ("hr_average", "Average Heart Rate (bpm)");
    ("hr_min", "Minimum Heart Rate (bpm)");
    ("hr_max", "Maximum Heart Rate (bpm)");
    ("rr_average", "Average Respiratory Rate (breaths/min)");
    ("rr_min", "Minimum Respiratory Rate (breaths/min)");
    ("rr_max", "Maximum Respiratory Rate (breaths/min)");
    ("snoring", "Snoring Duration (minutes)");
    ("snoringepisodecount", "Snoring Episodes (count)");
    ("sleep_score", "Sleep Score");
    ("night_events", "Night Events (count)");
    ("mvt_score_avg", "Average Movement Score");
    ("mvt_active_duration", "Movement Duration (minutes)");
    ("chest_movement_rate_average", "Average Chest Movement Rate (breaths/min)");
    ("chest_movement_rate_min", "Minimum Chest Movement Rate (breaths/min)");
    ("chest_movement_rate_max", "Maximum Chest Movement Rate (breaths/min)");
    ("breathing_sounds", "Breathing Sounds Intensity");
    ("breathing_sounds_episode_count", "Breathing Sounds Episodes (count)") ].

(** [displayName.includes('(hours)')].  A field without an entry gets a name
    made from the field itself with every word capitalised, which cannot
    contain the lower-case "(hours)". *)
Definition shownInHours (name : string) : bool :=
  match find_key name fieldDisplayNameMap with
  | Some displayName =>
      match String.index 0 "(hours)" displayName with
      | Some _ => true
      | None => false
      end
  | None => false
  end.

(** [row['w_' + field] !== undefined ? row['w_' + field] : row[field]]. *)
Definition metricValue (name : string) (row : SummaryRow) : value :=
  if negb (is_undefined (field row ("w_" ++ name)))
  then field row ("w_" ++ name)
  else field row name.

(** [.filter(v => typeof v === 'number' && !isNaN(v))]. *)
Definition numericOnly (vs : list value) : list float :=
  flat_map (fun v => match v with
                     | VNum x => if PrimFloat.is_nan x then [] else [x]
                     | _ => []
                     end) vs.

(** [values] before the unit conversion. *)
Definition metricValues (name : string) (validData : list SummaryRow) : list float :=
  numericOnly (map (metricValue name) validData).

Definition convertUnit (name : string) (v : float) : float :=
  if Flattener.includes name DURATION_FIELDS_IN_SECONDS
  then if shownInHours name
       then PrimFloat.div v 3600%float
       else PrimFloat.div v 60%float
  else if Flattener.includes name EFFICIENCY_FIELDS
       then PrimFloat.mul v 100%float
       else v.

(** [values] as aggregated into mean, deviation, minimum and maximum. *)
Definition aggregatedValues (name : string) (validData : list SummaryRow)
  : list float :=
  map (convertUnit name) (metricValues name validData).

(** *** Severity classifiers *)

Record Severity : Type := {
  label : string;
  color : string
}.

Definition getOSASeverityAndColor (ahi : float) : Severity :=
  if PrimFloat.leb ahi 5%float then {| label := "None/Minimal"; color := "green" |}
  else if PrimFloat.leb ahi 15%float then {| label := "Mild"; color := "yellow" |}
  else if PrimFloat.leb ahi 30%float then {| label := "Moderate"; color := "orange" |}
  else {| label := "Severe"; color := "red" |}.

Definition getSnoringSeverityAndColor (snoring : float) : Severity :=
  if PrimFloat.eqb snoring 0%float then {| label := "No Snoring"; color := "green" |}
  else if PrimFloat.leb snoring 15%float then {| label := "Mild"; color := "yellow" |}
  else if PrimFloat.leb snoring 30%float then {| label := "Moderate"; color := "goldenrod" |}
  else if PrimFloat.leb snoring 60%float then {| label := "Heavy"; color := "orange" |}
  else {| label := "Severe"; color := "red" |}.

(** *** Timing layout: [mins_from_noon_js] and the timing records *)

(** The zone [Intl.DateTimeFormat] formats in for a [timeZone] option. *)
Definition namedZone (name : string) : option (Z -> Z) :=
  if String.eqb name "UTC" then Some (fun _ => 0) else zoneOffset name.

Definition resolveZone (timeZone : value) : option (Z -> Z) :=
  match timeZone with
  | VUndefined => Some defaultZone
  | VStr name => namedZone name
  | v => namedZone (ToString v)
  end.

(** The hour (0 to 23, hour cycle h23) and minute parts of instant [t] on
    the wall clock of a zone. *)
Definition localHour (zone : Z -> Z) (t : Z) : Z :=
  ((t + zone t) / 3600000) mod 24.

Definition localMinute (zone : Z -> Z) (t : Z) : Z :=
  ((t + zone t) / 60000) mod 60.

(** The returned expression; [%] is the remainder with the dividend's sign. *)
Definition minutesFromNoon (hour minute : Z) : Z :=
  Z.rem (((hour * 60 + minute) - 720) + 1440) 1440.

(** [None] is the [null] result: no valid [Date], or a zone the formatter
    rejects (the [catch]). *)
Definition mins_from_noon_js (d : value) (timeZone : value) : option Z :=
  match d with
  | VDate (Some t) =>
      let tz := if REPORT_APPLY_TIMEZONE then timeZone else VStr "UTC" in
      match resolveZone tz with
      | Some zone => Some (minutesFromNoon (localHour zone t) (localMinute zone t))
      | None => None
      end
  | _ => None
  end.

(** [formatInTimeZoneJS(date, timeZone, { day: '2-digit', month: 'short' })]:
    [null] for an invalid date, the UTC rendering when the zone is rejected. *)
Definition formatInTimeZoneJS (d : value) (timeZone : value) : option string :=
  match d with
  | VDate (Some t) =>
      let tz := if REPORT_APPLY_TIMEZONE then timeZone else VStr "UTC" in
      match resolveZone tz with
      | Some zone => Some (formatDayMonth t zone)
      | None => Some (formatDayMonth t (fun _ => 0))
      end
  | _ => None
  end.

(** One element of [plotData], without its hover text. *)
Record TimingRecord : Type := {
  tr_startdate_utc : Z;
  tr_enddate_utc : Z;
  tr_timezone : value;
  sleep_latency : value;
  tr_id : string;
  y : string;
  base : Z;
  duration : Z;
  start_min_from_noon : Z;
  out_of_bed_count : value;
  ahi_round : float;
  snoring_minutes : value;
  hr_average : value;
  TIB_min : float;
  asleep_min : float;
  sleep_efficiency_percent : float
}.

(** The callback of [validSummary.map]; the empty list is the [null] that
    [filter(Boolean)] removes. *)
Definition timingRecord (row : SummaryRow) : list TimingRecord :=
  let tz := or_else (field row "w_timezone") (field row "timezone") in
  match formatInTimeZoneJS (field row "enddate_utc") tz,
        mins_from_noon_js (field row "startdate_utc") tz,
        mins_from_noon_js (field row "enddate_utc") tz with
  | Some yLabel, Some startMin, Some endMinRaw =>
      let endMin := if endMinRaw <? startMin then endMinRaw + 1440 else endMinRaw in
      [ {| tr_startdate_utc := startdate_utc row;
           tr_enddate_utc := enddate_utc row;
           tr_timezone := tz;
           sleep_latency := field row "sleep_latency";
           tr_id := ToString (or_else (field row "w_id") (field row "id"));
           y := yLabel;
           base := startMin;
           duration := endMin - startMin;
           start_min_from_noon := startMin;
           out_of_bed_count := field row "out_of_bed_count";
           ahi_round := MathRound (ToNumber (field row "apnea_hypopnea_index"));
           snoring_minutes := field row "snoring_minutes";
           hr_average := field row "hr_average";
           TIB_min := PrimFloat.div (ToNumber (field row "total_timeinbed")) 3600%float;
           asleep_min := PrimFloat.div (ToNumber (field row "total_sleep_time")) 3600%float;
           sleep_efficiency_percent :=
             PrimFloat.mul
               (ToNumber (or_else (field row "sleep_efficiency") (VNum 0%float)))
               100%float |} ]
  | _, _, _ => []
  end.

(** [plotData]: the rows ordered by [enddate_utc], one record each. *)
Definition plotData (summaryData : list SummaryRow) : list TimingRecord :=
  flat_map timingRecord (sort_by enddate_utc summaryData).

End Page.
End Client.

(** ** The report page: filters, wake bars and the weekday split *)

Module Overview.
Section Page.

Context {rt : Runtime}.
Variable REPORT_APPLY_TIMEZONE : bool.

Import Client.

(** [Map.prototype.get] on a map with string keys built from a list of
    entries: a later entry with the same key has overwritten an earlier
    one. *)
Fixpoint strmap_get {A : Type} (k : string) (entries : list (string * A))
  : option A :=
  match entries with
  | [] => None
  | (k', v) :: rest =>
      match strmap_get k rest with
      | Some later => Some later
      | None => if String.eqb k' k then Some v else None
      end
  end.

(** *** [applyFilters] and [updateReport] *)

(** [(d.w_total_sleep_time || d.total_sleep_time) >= durationSeconds]: the
    comparison converts the left side to a number and is false when either
    side is [NaN]. *)
Definition longEnough (durationSeconds : float) (d : SummaryRow) : bool :=
  PrimFloat.leb durationSeconds (ToNumber (headlineValue "total_sleep_time" d)).

(** The rows [applyFilters] passes on; [durationHours] is the parsed content
    of the input box. *)
Definition filteredData (filterToggle : bool) (durationHours : float)
           (fullSummaryData : list SummaryRow) : list SummaryRow :=
  let durationSeconds := PrimFloat.mul durationHours 3600%float in
  if filterToggle && negb (PrimFloat.is_nan durationSeconds)
  then filter (longEnough durationSeconds) fullSummaryData
  else fullSummaryData.

(** [None] when the page shows "No data matches the current filters."
    instead of a report; otherwise the rows [updateReport] works on, ordered
    by [startdate_utc]. *)
Definition applyFilters (filterToggle : bool) (durationHours : float)
           (fullSummaryData : list SummaryRow) : option (list SummaryRow) :=
  let rows := filteredData filterToggle durationHours fullSummaryData in
  if (List.length rows =? 0)%nat then None
  else Some (sort_by startdate_utc rows).

(** *** Wake bars of [renderHorizontalSleepTimingPlot] *)

Definition idToTz (validSummary : list SummaryRow) : list (string * value) :=
  map (fun r => (ToString (or_else (field r "w_id") (field r "id")),
                 or_else (or_else (field r "w_timezone") (field r "timezone"))
                         (VStr "UTC")))
      validSummary.

Definition idToY (plot : list TimingRecord) : list (string * string) :=
  map (fun d => (tr_id d, y d)) plot.

(** One element of [epochPlotData]. *)
Record WakeBar : Type := {
  wb_id : string;
  wb_y : option string;
  wb_timezone : value;
  wb_start : Z;
  wb_end : Z;
  startMin : Z;
  durationMin : Z
}.

(** The callback of [.map(w => ...)]; the empty list is the [null] that
    [filter(Boolean)] removes. *)
Definition wakeBar (summaryData : list SummaryRow) (w : WakeEpisode)
  : list WakeBar :=
  let validSummary := sort_by enddate_utc summaryData in
  let tz := match strmap_get (ep_id w) (idToTz validSummary) with
            | Some v => or_else v (VStr "UTC")
            | None => VStr "UTC"
            end in
  let yLabel :=
    match strmap_get (ep_id w)
                     (idToY (plotData REPORT_APPLY_TIMEZONE summaryData)) with
    | Some s => if truthy (VStr s) then Some s
                else formatInTimeZoneJS REPORT_APPLY_TIMEZONE
                                        (VDate (Some (ep_end w))) tz
    | None => formatInTimeZoneJS REPORT_APPLY_TIMEZONE (VDate (Some (ep_end w))) tz
    end in
  match mins_from_noon_js REPORT_APPLY_TIMEZONE (VDate (Some (ep_start w))) tz,
        mins_from_noon_js REPORT_APPLY_TIMEZONE (VDate (Some (ep_end w))) tz with
  | Some sMin, Some eMin =>
      [ {| wb_id := ep_id w;
           wb_y := yLabel;
           wb_timezone := tz;
           wb_start := ep_start w;
           wb_end := ep_end w;
           startMin := sMin;
           durationMin := if eMin >=? sMin then eMin - sMin
                          else eMin + 1440 - sMin |} ]
  | _, _ => []
  end.

(** [epochPlotData]: only episodes of at least ten minutes are drawn. *)
Definition epochPlotData (summaryData : list SummaryRow)
           (wakeEpisodes : list WakeEpisode) : list WakeBar :=
  flat_map (wakeBar summaryData)
           (filter (fun w => Qle_bool (600 # 1) (durationSec w)) wakeEpisodes).

(** *** Weekday and weekend nights *)

(** [new Date(d).getDay()]: the day of the week (Sunday is 0) on the wall
    clock of the zone the page runs in; 1 January 1970 was a Thursday. *)
Definition getDay (t : Z) : Z :=
  ((t + defaultZone t) / 86400000 + 4) mod 7.

Definition isWeekend (t : Z) : bool :=
  (getDay t =? 0) || (getDay t =? 6).

(** [weekdaysDurations] and [weekendsDurations] of
    [DurationEfficiencyRegularity]. *)
Definition weekdaysDurations (validData : list SummaryRow) : list float :=
  numericOnly
    (map (fun row => field row "total_sleep_time_hours")
         (filter (fun d => negb (isWeekend (enddate_utc d))) validData)).

Definition weekendsDurations (validData : list SummaryRow) : list float :=
  numericOnly
    (map (fun row => field row "total_sleep_time_hours")
         (filter (fun d => isWeekend (enddate_utc d)) validData)).

End Page.
End Overview.

(** ** The CSV upload: [parseCsvData] and the date-range filter of the
    report route *)

Module Upload.

(** What [Papa.parse] returns: the errors as code and message, the header
    fields ([meta.fields || []]) and the parsed rows. *)
Record ParseResult : Type := {
  errors : list (string * string);
  fields : list string;
  data : list props
}.

(** The errors [parseCsvData] throws: a parse error of the summary file or
    of the epoch file, with the parser's message, and the unrecognised
    summary format. *)
Inductive CsvError : Type :=
| SummaryParseError (message : string)
| EpochParseError (message : string)
| UnknownFormat.

Record CsvData : Type := {
  summaryData : list props;
  epochData : list props
}.

Section ParseCsv.

Context {rt : Runtime}.

(** [new Date(v).getTime() / 1000] for a parsed cell, a conversion of the
    runtime. *)
Variable DateSeconds : value -> float.

(** [key.startsWith('w_')] and [key.substring(2)]. *)
Definition startsWithPrefix (key : string) : bool := String.prefix "w_" key.

Definition targetKey (key : string) : string :=
  if startsWithPrefix key
  then String.substring 2 (String.length key - 2) key
  else key.

(** The [for (const key in row)] loop that builds [newRow]. *)
Definition stripPrefix (row : props) : props :=
  fold_left (fun newRow kv => Js.set (targetKey (fst kv)) (lookup (fst kv) row) newRow)
            row [].

Definition dateVal (row : props) (name wname : string) : float :=
  if truthy (lookup name row) then DateSeconds (lookup name row)
  else if truthy (lookup wname row) then DateSeconds (lookup wname row)
       else PrimFloat.nan.

Definition orNull (x : float) : value :=
  if PrimFloat.is_nan x then VNull else VNum x.

(** The callback that builds [tempSummaryForProcessing]. *)
Definition tempRow (row : props) : props :=
  let newRow := stripPrefix row in
  let newRow := Js.set "startdate" (orNull (dateVal row "startdate" "w_startdate"))
                       newRow in
  let newRow := Js.set "enddate" (orNull (dateVal row "enddate" "w_enddate"))
                       newRow in
  Js.set "data" (VObj []) (assign [] newRow).

(** The callback of the canonical branch. *)
Definition canonicalRow (row : props) : props :=
  Js.set "enddate_utc" (VDate (DateOfValue (lookup "enddate_utc" row)))
    (Js.set "startdate_utc" (VDate (DateOfValue (lookup "startdate_utc" row)))
       (assign [] row)).

Definition epochCsvRow (row : props) : props :=
  Js.set "datetime_utc" (VDate (DateOfValue (lookup "datetime_utc" row)))
         (assign [] row).

(** The first error stops the parse unless it is the undetectable
    delimiter. *)
Definition fatalError (r : ParseResult) : option string :=
  match errors r with
  | (code, message) :: _ =>
      if negb (String.eqb code "UndetectableDelimiter") then Some message else None
  | [] => None
  end.

(** [epochResult] is [None] when no epoch file is given or it is blank. *)
Definition parseCsvData (summaryResult : ParseResult)
           (epochResult : option ParseResult) : CsvError + CsvData :=
  match fatalError summaryResult with
  | Some message => inl (SummaryParseError message)
  | None =>
      let summary :=
        if Flattener.includes "w_startdate" (fields summaryResult)
        then Some (Normalizer.processSummaryData
                     (map tempRow (data summaryResult)) "csv_upload")
        else if Flattener.includes "startdate_utc" (fields summaryResult)
             then Some (map canonicalRow (data summaryResult))
             else None in
      match summary with
      | None => inl UnknownFormat
      | Some rows =>
          match epochResult with
          | None => inr {| summaryData := rows; epochData := [] |}
          | Some er =>
              match fatalError er with
              | Some message => inl (EpochParseError message)
              | None => inr {| summaryData := rows;
                               epochData := map epochCsvRow (data er) |}
              end
          end
      end
  end.

(** *** The date-range filter of the route *)

(** [row.w_enddate ? new Date(row.w_enddate) : row.enddate_utc] as a time
    value; [enddate_utc] is a [Date] on both branches of [parseCsvData]. *)
Definition rowDate (row : props) : option Z :=
  if truthy (lookup "w_enddate" row)
  then DateOfValue (lookup "w_enddate" row)
  else match lookup "enddate_utc" row with
       | VDate t => t
       | _ => None
       end.

(** [rowDate >= start && rowDate <= end]: false for an invalid date. *)
Definition inRange (rangeStart rangeEnd : Z) (row : props) : bool :=
  match rowDate row with
  | Some t => (rangeStart <=? t) && (t <=? rangeEnd)
  | None => false
  end.

(** The body of [if (startDate && endDate && summaryData.length > 0)]:
    [rangeStart] and [rangeEnd] are the first and the last millisecond of
    the chosen days. *)
Definition filterByRange (rangeStart rangeEnd : Z) (csv : CsvData) : CsvData :=
  let kept := filter (inRange rangeStart rangeEnd) (summaryData csv) in
  {| summaryData := kept;
     epochData :=
       if (0 <? List.length (epochData csv))%nat
       then filter (fun e =>
                      existsb (fun s => same_value_zero (lookup "id" s) (lookup "id" e))
                              kept)
                   (epochData csv)
       else epochData csv |}.

End ParseCsv.
End Upload.

(** What holds of an episode that has passed the ten-minute test for a
    night: used to state the detector's invariant. *)
Definition retained (nid : string) (night : Client.Night) (e : Client.WakeEpisode)
  : Prop :=
  Client.ep_id e = nid
  /\ Client.night_start night <= Client.ep_start e
  /\ Client.ep_start e + 600000 <= Client.ep_end e
  /\ Client.ep_end e <= Client.night_end night
  /\ Client.durationSec e = (Client.ep_end e - Client.ep_start e) # 1000.

(** * Properties *)

#[local] Set Warnings "-inexact-float".

(** ** Own-property tables *)

Section PropertyTables.

Context {A : Type}.
Implicit Types (k : string) (ps : list (string * A)).

Lemma find_key_replace_same k (v : A) ps :
  has_key k ps = true -> find_key k (replace k v ps) = Some v.
Proof.
  induction ps as [|[k' v'] rest IH]; simpl; [discriminate|].
  destruct (String.eqb k k') eqn:E; simpl.
  - rewrite E. reflexivity.
  - rewrite E. exact IH.
Qed.

Lemma find_key_replace_other k k' (v : A) ps :
  k <> k' -> find_key k (replace k' v ps) = find_key k ps.
Proof.
  intros Hne. induction ps as [|[k0 v0] rest IH]; simpl; [reflexivity|].
  destruct (String.eqb k' k0) eqn:E; simpl.
  - apply String.eqb_eq in E. subst k0.
    destruct (String.eqb k k') eqn:E'; [apply String.eqb_eq in E'; contradiction|].
    reflexivity.
  - destruct (String.eqb k k0); [reflexivity | exact IH].
Qed.

Lemma find_key_insert_new_same k (v : A) ps :
  has_key k ps = false -> find_key k (insert_new k v ps) = Some v.
Proof.
  induction ps as [|[k' v'] rest IH]; simpl.
  - destruct (array_index k); simpl; rewrite String.eqb_refl; reflexivity.
  - intros H. apply orb_false_iff in H. destruct H as [Hk Hrest].
    destruct (array_index k) as [n|] eqn:Ek.
    + destruct (array_index k') as [n'|].
      * destruct (n <? n'); simpl.
        -- rewrite String.eqb_refl. reflexivity.
        -- rewrite Hk. apply IH. exact Hrest.
      * simpl. rewrite String.eqb_refl. reflexivity.
    + simpl. rewrite Hk. clear IH Hk.
      induction rest as [|[k0 v0] rest' IH']; simpl.
      * rewrite String.eqb_refl. reflexivity.
      * simpl in Hrest. apply orb_false_iff in Hrest. destruct Hrest as [H0 H1].
        rewrite H0. apply IH'. exact H1.
Qed.

Lemma find_key_app_other k k' (v : A) ps :
  k <> k' -> find_key k (ps ++ [(k', v)]) = find_key k ps.
Proof.
  intros Hne. induction ps as [|[k0 v0] rest IH]; simpl.
  - destruct (String.eqb k k') eqn:E; [apply String.eqb_eq in E; contradiction|].
    reflexivity.
  - destruct (String.eqb k k0); [reflexivity | exact IH].
Qed.

Lemma find_key_insert_new_other k k' (v : A) ps :
  k <> k' -> find_key k (insert_new k' v ps) = find_key k ps.
Proof.
  intros Hne.
  assert (Hkk : String.eqb k k' = false) by (apply String.eqb_neq; exact Hne).
  induction ps as [|[k0 v0] rest IH]; simpl.
  - destruct (array_index k'); simpl; rewrite Hkk; reflexivity.
  - destruct (array_index k') as [n|] eqn:Ek.
    + destruct (array_index k0) as [n0|].
      * destruct (n <? n0); simpl.
        -- rewrite Hkk. reflexivity.
        -- destruct (String.eqb k k0); [reflexivity | exact IH].
      * simpl. rewrite Hkk. reflexivity.
    + change ((k0, v0) :: rest ++ [(k', v)])%list
        with (((k0, v0) :: rest) ++ [(k', v)])%list.
      rewrite find_key_app_other by exact Hne. reflexivity.
Qed.

Lemma find_key_set_same k (v : A) ps : find_key k (Js.set k v ps) = Some v.
Proof.
  unfold Js.set. destruct (has_key k ps) eqn:E.
  - apply find_key_replace_same. exact E.
  - apply find_key_insert_new_same. exact E.
Qed.

Lemma find_key_set_other k k' (v : A) ps :
  k <> k' -> find_key k (Js.set k' v ps) = find_key k ps.
Proof.
  intros Hne. unfold Js.set. destruct (has_key k' ps).
  - apply find_key_replace_other. exact Hne.
  - apply find_key_insert_new_other. exact Hne.
Qed.

End PropertyTables.

Lemma lookup_find_key (k : string) (ps : props) :
  lookup k ps = match find_key k ps with Some v => v | None => VUndefined end.
Proof.
  induction ps as [|[k' v'] rest IH]; simpl; [reflexivity|].
  destruct (String.eqb k k'); [reflexivity | exact IH].
Qed.

Lemma lookup_set_same (k : string) (v : value) (ps : props) :
  lookup k (Js.set k v ps) = v.
Proof. rewrite lookup_find_key, find_key_set_same. reflexivity. Qed.

Lemma lookup_set_other (k k' : string) (v : value) (ps : props) :
  k <> k' -> lookup k (Js.set k' v ps) = lookup k ps.
Proof.
  intros Hne. rewrite !lookup_find_key, find_key_set_other by exact Hne.
  reflexivity.
Qed.

(** Reading a field of an object built by a chain of writes. *)
Ltac read_written :=
  repeat first
    [ rewrite lookup_set_same
    | rewrite lookup_set_other by (let H := fresh in intro H; discriminate H) ].

(** ** Summary Normalizer *)

Section NormalizerFacts.

Context {rt : Runtime}.
Import Normalizer.

Lemma processSummaryRow_hours (label : string) (rawRow : props) :
  lookup "total_sleep_time_hours" (processSummaryRow label rawRow)
  = total_sleep_time_hours (mergedRow rawRow).
Proof. unfold processSummaryRow, assign. simpl. read_written. reflexivity. Qed.

Lemma processSummaryRow_percent (label : string) (rawRow : props) :
  lookup "sleep_efficiency_percent" (processSummaryRow label rawRow)
  = sleep_efficiency_percent (mergedRow rawRow).
Proof. unfold processSummaryRow, assign. simpl. read_written. reflexivity. Qed.

Lemma processSummaryRow_ahi (label : string) (rawRow : props) :
  lookup "apnea_hypopnea_index" (processSummaryRow label rawRow)
  = apnea_hypopnea_index (mergedRow rawRow).
Proof. unfold processSummaryRow, assign. simpl. read_written. reflexivity. Qed.


(** C8 (the code at the failing input).  A source [apnea_hypopnea_index] of
    [null] is not a number, yet the normalised value is the number 0, not
    [null]: [Number(null)] is 0, which passes both the [isNaN] test and the
    sign test.  An absent value and a negative one do become [null]. *)
Theorem null_ahi_becomes_zero (label : string) :
  lookup "apnea_hypopnea_index"
         (processSummaryRow label [ ("apnea_hypopnea_index", VNull) ])
  = VNum 0%float
  /\ lookup "apnea_hypopnea_index" (processSummaryRow label []) = VNull
  /\ lookup "apnea_hypopnea_index"
            (processSummaryRow label [ ("apnea_hypopnea_index", VNum (-3)%float) ])
     = VNull.
Proof.
  rewrite !processSummaryRow_ahi. repeat split; vm_compute; reflexivity.
Qed.

End NormalizerFacts.

(** ** The order of binary64 numbers

    The comparisons of [PrimFloat] are specified by [SFcompare] on the
    unpacked number; what the classifiers need is that [<] is transitive and
    excludes the converse [<=] and [==]. *)

Section SpecOrder.

Lemma SFcompare_antisym (x y : spec_float) :
  SFcompare y x = match SFcompare x y with Some c => Some (CompOpp c) | None => None end.
Proof.
  destruct x as [[|]|[|]| |[|] m1 e1], y as [[|]|[|]| |[|] m2 e2];
    try reflexivity; unfold SFcompare;
    rewrite (Z.compare_antisym e1 e2);
    pose proof (Pos.compare_cont_antisym m1 m2 Eq) as A; cbn [CompOpp] in A;
    rewrite <- A;
    destruct (e1 ?= e2)%Z; try reflexivity; cbn [CompOpp];
    destruct (Pos.compare_cont Eq m1 m2); reflexivity.
Qed.

Lemma lex_lt_trans (e1 e2 e3 : Z) (m1 m2 m3 : positive) :
  match (e1 ?= e2)%Z with Eq => Pos.compare_cont Eq m1 m2 | c => c end = Lt ->
  match (e2 ?= e3)%Z with Eq => Pos.compare_cont Eq m2 m3 | c => c end = Lt ->
  match (e1 ?= e3)%Z with Eq => Pos.compare_cont Eq m1 m3 | c => c end = Lt.
Proof.
  change (Pos.compare_cont Eq m1 m2) with (Pos.compare m1 m2).
  change (Pos.compare_cont Eq m2 m3) with (Pos.compare m2 m3).
  change (Pos.compare_cont Eq m1 m3) with (Pos.compare m1 m3).
  destruct (Z.compare_spec e1 e2), (Z.compare_spec e2 e3), (Z.compare_spec e1 e3);
    try discriminate; try lia; try reflexivity;
    destruct (Pos.compare_spec m1 m2), (Pos.compare_spec m2 m3), (Pos.compare_spec m1 m3);
    try discriminate; try lia; try reflexivity.
Qed.

Lemma lex_gt_trans (e1 e2 e3 : Z) (m1 m2 m3 : positive) :
  match (e1 ?= e2)%Z with Eq => Pos.compare_cont Eq m1 m2 | c => c end = Gt ->
  match (e2 ?= e3)%Z with Eq => Pos.compare_cont Eq m2 m3 | c => c end = Gt ->
  match (e1 ?= e3)%Z with Eq => Pos.compare_cont Eq m1 m3 | c => c end = Gt.
Proof.
  change (Pos.compare_cont Eq m1 m2) with (Pos.compare m1 m2).
  change (Pos.compare_cont Eq m2 m3) with (Pos.compare m2 m3).
  change (Pos.compare_cont Eq m1 m3) with (Pos.compare m1 m3).
  destruct (Z.compare_spec e1 e2), (Z.compare_spec e2 e3), (Z.compare_spec e1 e3);
    try discriminate; try lia; try reflexivity;
    destruct (Pos.compare_spec m1 m2), (Pos.compare_spec m2 m3), (Pos.compare_spec m1 m3);
    try discriminate; try lia; try reflexivity.
Qed.

Lemma SFltb_trans (x y z : spec_float) :
  SFltb x y = true -> SFltb y z = true -> SFltb x z = true.
Proof.
  unfold SFltb.
  destruct x as [[|]|[|]| |[|] m1 e1], y as [[|]|[|]| |[|] m2 e2],
           z as [[|]|[|]| |[|] m3 e3];
    cbn [SFcompare]; try reflexivity; try discriminate.
  - intros H12 H23.
    pose proof (lex_gt_trans e1 e2 e3 m1 m2 m3) as T.
    destruct (e1 ?= e2)%Z, (e2 ?= e3)%Z, (e1 ?= e3)%Z; cbn [CompOpp] in *;
      try discriminate; try reflexivity;
      destruct (Pos.compare_cont Eq m1 m2), (Pos.compare_cont Eq m2 m3),
               (Pos.compare_cont Eq m1 m3);
      cbn [CompOpp] in *; try discriminate; try reflexivity;
      try (specialize (T eq_refl eq_refl); discriminate).
  - intros H12 H23.
    pose proof (lex_lt_trans e1 e2 e3 m1 m2 m3) as T.
    destruct (e1 ?= e2)%Z, (e2 ?= e3)%Z, (e1 ?= e3)%Z; cbn [CompOpp] in *;
      try discriminate; try reflexivity;
      destruct (Pos.compare_cont Eq m1 m2), (Pos.compare_cont Eq m2 m3),
               (Pos.compare_cont Eq m1 m3);
      cbn [CompOpp] in *; try discriminate; try reflexivity;
      try (specialize (T eq_refl eq_refl); discriminate).
Qed.
End SpecOrder.

Lemma ltb_trans (x y z : float) : (x <? y)%float = true -> (y <? z)%float = true -> (x <? z)%float = true.
Proof. rewrite !FloatAxioms.ltb_spec. apply SFltb_trans. Qed.

Lemma ltb_leb_false (x y : float) : (x <? y)%float = true -> (y <=? x)%float = false.
Proof.
  rewrite FloatAxioms.ltb_spec, FloatAxioms.leb_spec. unfold SFltb, SFleb.
  rewrite (SFcompare_antisym (Prim2SF x) (Prim2SF y)).
  destruct (SFcompare (Prim2SF x) (Prim2SF y)) as [[| |]|]; try discriminate. reflexivity.
Qed.

Lemma ltb_eqb_false (x y : float) : (x <? y)%float = true -> (y =? x)%float = false.
Proof.
  rewrite FloatAxioms.ltb_spec, FloatAxioms.eqb_spec. unfold SFltb, SFeqb.
  rewrite (SFcompare_antisym (Prim2SF x) (Prim2SF y)).
  destruct (SFcompare (Prim2SF x) (Prim2SF y)) as [[| |]|]; try discriminate. reflexivity.
Qed.


(** ** Severity classifiers *)

Section SeverityFacts.

Import Client.
Local Open Scope float_scope.

(** A number above a threshold is above every smaller threshold. *)
Lemma above_smaller (lo hi x : float) :
  (lo <? hi) = true -> (hi <? x) = true -> (x <=? lo) = false.
Proof.
  intros Hlo Hx. apply ltb_leb_false. exact (ltb_trans lo hi x Hlo Hx).
Qed.

(** C9.  The apnea-hypopnea classifier puts a number at most 5 in
    None/Minimal, one above 5 and at most 15 in Mild, one above 15 and at most
    30 in Moderate and one above 30 in Severe, so 2, 10, 22 and 40 fall in the
    four bands in turn; the snoring classifier puts 0 in No Snoring, any other
    number at most 15 in Mild, one above 15 and at most 30 in Moderate, one
    above 30 and at most 60 in Heavy and one above 60 in Severe. *)
Theorem severity_bands (x : float) :
  ((x <=? 5) = true -> label (getOSASeverityAndColor x) = "None/Minimal")
  /\ ((5 <? x) = true -> (x <=? 15) = true ->
      label (getOSASeverityAndColor x) = "Mild")
  /\ ((15 <? x) = true -> (x <=? 30) = true ->
      label (getOSASeverityAndColor x) = "Moderate")
  /\ ((30 <? x) = true -> label (getOSASeverityAndColor x) = "Severe")
  /\ map (fun ahi => label (getOSASeverityAndColor ahi)) [2; 10; 22; 40]
     = ["None/Minimal"; "Mild"; "Moderate"; "Severe"]
  /\ ((x =? 0) = true -> label (getSnoringSeverityAndColor x) = "No Snoring")
  /\ ((x =? 0) = false -> (x <=? 15) = true ->
      label (getSnoringSeverityAndColor x) = "Mild")
  /\ ((15 <? x) = true -> (x <=? 30) = true ->
      label (getSnoringSeverityAndColor x) = "Moderate")
  /\ ((30 <? x) = true -> (x <=? 60) = true ->
      label (getSnoringSeverityAndColor x) = "Heavy")
  /\ ((60 <? x) = true -> label (getSnoringSeverityAndColor x) = "Severe").
Proof.
  assert (C0 : (0 <? 15) = true) by (vm_compute; reflexivity).
  assert (C1 : (5 <? 15) = true) by (vm_compute; reflexivity).
  assert (C2 : (5 <? 30) = true) by (vm_compute; reflexivity).
  assert (C3 : (15 <? 30) = true) by (vm_compute; reflexivity).
  assert (C4 : (15 <? 60) = true) by (vm_compute; reflexivity).
  assert (C5 : (30 <? 60) = true) by (vm_compute; reflexivity).
  assert (C6 : (0 <? 30) = true) by (vm_compute; reflexivity).
  assert (C7 : (0 <? 60) = true) by (vm_compute; reflexivity).
  unfold getOSASeverityAndColor, getSnoringSeverityAndColor.
  repeat split.
  - intros H. rewrite H. reflexivity.
  - intros H5 H15. rewrite (ltb_leb_false _ _ H5), H15. reflexivity.
  - intros H15 H30.
    rewrite (above_smaller 5 15 x C1 H15), (ltb_leb_false _ _ H15), H30.
    reflexivity.
  - intros H30.
    rewrite (above_smaller 5 30 x C2 H30), (above_smaller 15 30 x C3 H30),
      (ltb_leb_false _ _ H30).
    reflexivity.
  - intros H. rewrite H. reflexivity.
  - intros H0 H15. rewrite H0, H15. reflexivity.
  - intros H15 H30.
    rewrite (ltb_eqb_false _ _ (ltb_trans 0 15 x C0 H15)),
      (ltb_leb_false _ _ H15), H30.
    reflexivity.
  - intros H30 H60.
    rewrite (ltb_eqb_false _ _ (ltb_trans 0 30 x C6 H30)),
      (above_smaller 15 30 x C3 H30), (ltb_leb_false _ _ H30), H60.
    reflexivity.
  - intros H60.
    rewrite (ltb_eqb_false _ _ (ltb_trans 0 60 x C7 H60)),
      (above_smaller 15 60 x C4 H60), (above_smaller 30 60 x C5 H60),
      (ltb_leb_false _ _ H60).
    reflexivity.
Qed.

End SeverityFacts.

(** ** Report generation *)

Section GeneratorFacts.

Import Generator.



End GeneratorFacts.

(** ** Timing layout *)

Section TimingFacts.

Import Client.

Lemma minutesFromNoon_bounds (hour minute : Z) :
  0 <= hour <= 23 -> 0 <= minute <= 59 ->
  0 <= minutesFromNoon hour minute < 1440.
Proof.
  intros Hh Hm. unfold minutesFromNoon.
  apply Z.rem_bound_pos; lia.
Qed.

Lemma localHour_bounds (zone : Z -> Z) (t : Z) : 0 <= localHour zone t <= 23.
Proof.
  unfold localHour.
  pose proof (Z.mod_pos_bound ((t + zone t) / 3600000) 24 ltac:(lia)). lia.
Qed.

Lemma localMinute_bounds (zone : Z -> Z) (t : Z) : 0 <= localMinute zone t <= 59.
Proof.
  unfold localMinute.
  pose proof (Z.mod_pos_bound ((t + zone t) / 60000) 60 ltac:(lia)). lia.
Qed.

Lemma mins_from_noon_js_bounds {rt : Runtime} (tzOn : bool) (d tz : value) (m : Z) :
  mins_from_noon_js tzOn d tz = Some m -> 0 <= m < 1440.
Proof.
  unfold mins_from_noon_js.
  destruct d as [| | | | | [t|] |]; try discriminate.
  destruct (resolveZone _) as [zone|]; [|discriminate].
  intros H. injection H as <-.
  apply minutesFromNoon_bounds; [apply localHour_bounds | apply localMinute_bounds].
Qed.

(** C4 (as the code has it).  For an hour from 0 to 23 and a minute from 0 to
    59 the minutes-from-noon value lies in [0, 1440), and so does every value
    [mins_from_noon_js] returns.  A timing record's [base] is the start's
    value, and its [duration] is the end's value minus the start's, plus 1440
    when the end's value is the smaller: it lies in [0, 1440), and it is 0
    exactly when start and end show the same hour and minute. *)
Theorem timing_record_ranges {rt : Runtime} (tzOn : bool) :
  (forall hour minute,
     0 <= hour <= 23 -> 0 <= minute <= 59 ->
     0 <= minutesFromNoon hour minute < 1440)
  /\ (forall d tz m, mins_from_noon_js tzOn d tz = Some m -> 0 <= m < 1440)
  /\ (forall row rec,
        In rec (timingRecord tzOn row) ->
        exists startMin endMinRaw,
          mins_from_noon_js tzOn (field row "startdate_utc") (tr_timezone rec)
          = Some startMin
          /\ mins_from_noon_js tzOn (field row "enddate_utc") (tr_timezone rec)
             = Some endMinRaw
          /\ base rec = startMin
          /\ duration rec
             = (if endMinRaw <? startMin then endMinRaw + 1440 else endMinRaw)
               - startMin
          /\ 0 <= duration rec < 1440
          /\ (duration rec = 0 <-> endMinRaw = startMin)).
Proof.
  split; [exact minutesFromNoon_bounds|].
  split; [exact (mins_from_noon_js_bounds tzOn)|].
  intros row rec. unfold timingRecord.
  destruct (formatInTimeZoneJS _ _ _) as [yLabel|]; [|intros []].
  destruct (mins_from_noon_js tzOn (field row "startdate_utc") _)
    as [startMin|] eqn:Es; [|intros []].
  destruct (mins_from_noon_js tzOn (field row "enddate_utc") _)
    as [endMinRaw|] eqn:Ee; [|intros []].
  intros [<-|[]]. cbn [tr_timezone base duration].
  exists startMin, endMinRaw.
  pose proof (mins_from_noon_js_bounds _ _ _ _ Es).
  pose proof (mins_from_noon_js_bounds _ _ _ _ Ee).
  repeat split; try assumption; try reflexivity;
    destruct (Z.ltb_spec endMinRaw startMin); lia.
Qed.

(** C4, refuted as stated: a night that ends thirty seconds after it starts
    has [enddate_utc] after [startdate_utc] and a duration of 0 minutes. *)
Lemma positive_length_night_with_zero_duration :
  ~ (forall row rec,
       startdate_utc row < enddate_utc row ->
       In rec (timingRecord (rt := utc_runtime) false row) ->
       0 < duration rec).
Proof.
  intros H.
  pose (row := {| columns := []; startdate_utc := 0; enddate_utc := 30000 |}).
  assert (Hin : exists rec, In rec (timingRecord (rt := utc_runtime) false row)
                            /\ duration rec = 0).
  { eexists. split; [left; reflexivity|]. reflexivity. }
  destruct Hin as [rec [Hin Hd]].
  specialize (H row rec ltac:(cbn; lia) Hin). lia.
Qed.

(** The ranges at 23:00, the start of the night in the specification's
    example. *)
Lemma timing_record_ranges_witness : 0 <= minutesFromNoon 23 0 < 1440.
Proof.
  apply (proj1 (timing_record_ranges (rt := utc_runtime) true)); lia.
Defined.

End TimingFacts.

(** ** Epoch Flattener *)

Section FlattenerFacts.

Import Flattener.

Lemma map_get_some (k : value) (entries : list (value * SummaryInfo))
      (info : SummaryInfo) :
  map_get k entries = Some info ->
  exists k', In (k', info) entries /\ same_value_zero k' k = true.
Proof.
  induction entries as [|[k' v] rest IH]; simpl; [discriminate|].
  destruct (map_get k rest) as [later|] eqn:E.
  - intros H. injection H as <-.
    destruct (IH eq_refl) as [k0 [Hin Hk]]. exists k0. auto.
  - destruct (same_value_zero k' k) eqn:Ek; [|discriminate].
    intros H. injection H as <-. exists k'. auto.
Qed.

Lemma map_get_none (k : value) (entries : list (value * SummaryInfo)) :
  (forall k' v, In (k', v) entries -> same_value_zero k' k = false) ->
  map_get k entries = None.
Proof.
  induction entries as [|[k' v] rest IH]; simpl; [reflexivity|].
  intros H. rewrite IH by (intros k0 v0 Hin; apply (H k0 v0); right; exact Hin).
  rewrite (H k' v) by (left; reflexivity). reflexivity.
Qed.

Lemma epochRow_id (sid : value) (info : SummaryInfo) (seriesItem : props)
      (tsStr : string) (e : ProcessedEpoch) :
  In e (epochRow sid info seriesItem tsStr) -> id e = sid.
Proof.
  unfold epochRow. destruct (parseInt10 tsStr); [|intros []].
  intros [<-|[]]. reflexivity.
Qed.

Lemma processSeriesItem_id (sid : value) (info : SummaryInfo) (seriesItem : props)
      (e : ProcessedEpoch) :
  In e (processSeriesItem sid info seriesItem) -> id e = sid.
Proof.
  unfold processSeriesItem. destruct (refField seriesItem) as [r|]; [|intros []].
  destruct (_ || _); [intros []|].
  intros H. apply in_flat_map in H. destruct H as [ts [_ H]].
  exact (epochRow_id _ _ _ _ _ H).
Qed.

(** C10.  Every row [processEpochData] returns carries the id of a record of
    [summaryData] (the same key for the [Map] that joins them), and an epoch
    record whose [sleep_id] is the id of no summary record adds no row: the
    output is the same with the record taken out. *)
Theorem no_orphan_samples (summaryData : list props) :
  (forall epochRecords e,
     In e (processEpochData epochRecords summaryData) ->
     exists s, In s summaryData
               /\ same_value_zero (lookup "id" s) (id e) = true)
  /\ (forall before record after,
        (forall s, In s summaryData ->
                   same_value_zero (lookup "id" s) (sleep_id record) = false) ->
        processEpochRecord summaryData record = []
        /\ processEpochData (Some (before ++ record :: after)%list) summaryData
           = processEpochData (Some (before ++ after)%list) summaryData).
Proof.
  split.
  - intros [records|] e; [|intros []]. unfold processEpochData.
    intros H. apply in_flat_map in H. destruct H as [record [_ H]].
    unfold processEpochRecord in H.
    destruct (map_get (sleep_id record) (summaryMap summaryData))
      as [info|] eqn:E; [|destruct H].
    apply in_flat_map in H. destruct H as [seriesItem [_ H]].
    apply processSeriesItem_id in H. rewrite H.
    apply map_get_some in E. destruct E as [k' [Hin Hk]].
    unfold summaryMap in Hin. apply in_map_iff in Hin.
    destruct Hin as [s [Hs Hin]]. injection Hs as <- _.
    exists s. auto.
  - intros before record after Hno.
    assert (Hrec : processEpochRecord summaryData record = []).
    { unfold processEpochRecord. rewrite map_get_none; [reflexivity|].
      intros k' v Hin. unfold summaryMap in Hin. apply in_map_iff in Hin.
      destruct Hin as [s [Hs Hin]]. injection Hs as <- _. apply Hno. exact Hin. }
    split; [exact Hrec|].
    unfold processEpochData. rewrite !flat_map_app. cbn [flat_map].
    rewrite Hrec. reflexivity.
Qed.

(** The join at work: one record that matches a summary and one that does
    not. *)
Lemma no_orphan_samples_witness :
  processEpochData
    (Some [ {| sleep_id := VNum 7%float; series := [ [("hr", VObj [("100", VNum 60%float)])] ] |};
            {| sleep_id := VNum 8%float; series := [ [("hr", VObj [("200", VNum 61%float)])] ] |} ])
    [ [("id", VNum 7%float)] ]
  = processEpochData
      (Some [ {| sleep_id := VNum 7%float; series := [ [("hr", VObj [("100", VNum 60%float)])] ] |} ])
      [ [("id", VNum 7%float)] ].
Proof.
  refine (proj2 (proj2 (no_orphan_samples [ [("id", VNum 7%float)] ])
               [ {| sleep_id := VNum 7%float;
                    series := [ [("hr", VObj [("100", VNum 60%float)])] ] |} ]
               {| sleep_id := VNum 8%float;
                  series := [ [("hr", VObj [("200", VNum 61%float)])] ] |}
               [] _)).
  intros s [<-|[]]. vm_compute. reflexivity.
Defined.

End FlattenerFacts.

Section SegmentFacts.

Import Flattener.

Lemma find_first {A : Type} (f : A -> bool) (l : list A) (x : A) :
  find f l = Some x <->
  exists pre post, l = (pre ++ x :: post)%list /\ f x = true
                   /\ Forall (fun y => f y = false) pre.
Proof.
  split.
  - induction l as [|y rest IH]; simpl; [discriminate|].
    destruct (f y) eqn:E.
    + intros H. injection H as <-. exists [], rest. auto.
    + intros H. destruct (IH H) as [pre [post [-> [Hx Hpre]]]].
      exists (y :: pre), post. auto.
  - intros [pre [post [-> [Hx Hpre]]]].
    induction Hpre as [|y pre Hy _ IH]; simpl.
    + rewrite Hx. reflexivity.
    + rewrite Hy. exact IH.
Qed.

Lemma find_none {A : Type} (f : A -> bool) (l : list A) :
  find f l = None <-> Forall (fun y => f y = false) l.
Proof.
  induction l as [|y rest IH]; simpl.
  - split; [constructor | reflexivity].
  - destruct (f y) eqn:E.
    + split; [discriminate|]. intros H. inversion H; congruence.
    + rewrite IH. split; [constructor; assumption|]. intros H. inversion H; assumption.
Qed.

Lemma fieldValue_at (seriesItem : props) (tsStr field : string) :
  fieldValue seriesItem tsStr field
  = if is_undefined (get (lookup field seriesItem) tsStr)
    then VNull
    else get (lookup field seriesItem) tsStr.
Proof.
  unfold fieldValue.
  destruct (lookup field seriesItem) as [| |b|x|s|t|ps];
    unfold is_object; cbn [typeof get is_undefined];
    rewrite ?andb_false_r; try reflexivity.
  cbn [truthy andb]. destruct (is_undefined (lookup tsStr ps)); reflexivity.
Qed.

Lemma isReference_guard (seriesItem : props) (r : string) :
  isReference seriesItem r = true ->
  negb (truthy (VStr r)) || negb (truthy (lookup r seriesItem)) = false.
Proof.
  unfold isReference. intros H.
  apply andb_true_iff in H. destruct H as [H Hlen].
  apply andb_true_iff in H. destruct H as [H Hnull].
  apply andb_true_iff in H. destruct H as [Hinc Hobj].
  assert (Hr : String.eqb r "" = false).
  { destruct (String.eqb r "") eqn:E; [|reflexivity].
    apply String.eqb_eq in E. subst r. discriminate Hinc. }
  simpl. rewrite Hr. simpl.
  destruct (lookup r seriesItem); try discriminate; reflexivity.
Qed.

Lemma refField_isReference (seriesItem : props) (r : string) :
  refField seriesItem = Some r -> isReference seriesItem r = true.
Proof.
  unfold refField. intros H. apply find_some in H. tauto.
Qed.




End SegmentFacts.

(** ** Statistics *)

Section StatisticsFacts.

Import Client.

Lemma numericOnly_in (vs : list value) (x : float) :
  In x (numericOnly vs) <-> In (VNum x) vs /\ PrimFloat.is_nan x = false.
Proof.
  unfold numericOnly. rewrite in_flat_map. split.
  - intros [v [Hv Hx]]. destruct v as [| | |y| | |]; try destruct Hx.
    destruct (PrimFloat.is_nan y) eqn:E; [destruct Hx|].
    destruct Hx as [<-|[]]. auto.
  - intros [Hv Hx]. exists (VNum x). split; [exact Hv|].
    rewrite Hx. left. reflexivity.
Qed.




End StatisticsFacts.

(** ** Sorting by an integer key *)

Section SortFacts.

Context {A : Type} (key : A -> Z).

Lemma insert_by_last (x : A) (l : list A) :
  Forall (fun y => key y <= key x) l -> insert_by key x l = (l ++ [x])%list.
Proof.
  induction 1 as [|y rest Hy _ IH]; simpl; [reflexivity|].
  destruct (Z.leb_spec (key y) (key x)); [|lia]. rewrite IH. reflexivity.
Qed.

Lemma ascending_before (acc : list A) (x : A) (rest : list A) :
  ascending key (acc ++ x :: rest) -> Forall (fun y => key y <= key x) acc.
Proof.
  induction acc as [|a acc IH]; simpl; intros H; [constructor|].
  inversion H as [|? ? Hsorted Hall]; subst. constructor.
  - rewrite Forall_forall in Hall. apply Hall. apply in_or_app. right. left. reflexivity.
  - apply IH. exact Hsorted.
Qed.

Lemma fold_insert_ascending (l acc : list A) :
  ascending key (acc ++ l) ->
  fold_left (fun sorted x => insert_by key x sorted) l acc = (acc ++ l)%list.
Proof.
  revert acc. induction l as [|x rest IH]; intros acc H; simpl.
  - rewrite app_nil_r. reflexivity.
  - rewrite insert_by_last by (exact (ascending_before _ _ _ H)).
    rewrite IH; rewrite <- app_assoc; [reflexivity | exact H].
Qed.

(** Sorting rows that are already in ascending order changes nothing. *)
Lemma sort_by_ascending (l : list A) : ascending key l -> sort_by key l = l.
Proof. intros H. unfold sort_by. rewrite fold_insert_ascending; auto. Qed.

End SortFacts.

(** ** Wake-Episode Detector *)

Section DetectorFacts.

Import Client.

Implicit Types (nid : string) (night : Night) (r q first : EpochRow)
         (rows pre post more : list EpochRow).

Lemma last_cons {A : Type} (x d : A) (l : list A) : last (x :: l) d = last l x.
Proof.
  revert x d. induction l as [|y l IH]; intros x d; [reflexivity|].
  change (last (x :: y :: l) d) with (last (y :: l) d).
  rewrite (IH y d), (IH y x). reflexivity.
Qed.

Lemma scanRows_closed nid night (prev : EpochRow) rows :
  scanRows nid night None prev rows = scanNight nid night rows.
Proof. destruct rows as [|r rest]; simpl; [reflexivity|]. destruct (isAwake r); reflexivity. Qed.

Lemma scanRows_run nid night (s prev : EpochRow) more rows :
  Forall (fun r => isAwake r = true) more ->
  scanRows nid night (Some s) prev (more ++ rows)
  = scanRows nid night (Some s) (last more prev) rows.
Proof.
  intros H. revert prev. induction H as [|r more Hr _ IH]; intros prev.
  - reflexivity.
  - rewrite last_cons. cbn [app scanRows]. rewrite Hr. apply IH.
Qed.

Lemma scanRows_close nid night (s prev : EpochRow) post :
  (post = [] \/ exists q post', post = q :: post' /\ isAwake q = false) ->
  scanRows nid night (Some s) prev post
  = (closeEpisode nid night (date s) (date prev) ++ scanNight nid night post)%list.
Proof.
  intros [->|[q [post' [-> Hq]]]]; simpl.
  - rewrite app_nil_r. reflexivity.
  - rewrite Hq. reflexivity.
Qed.

Lemma scanRows_app_sleep nid night (body : list EpochRow) q rows :
  isAwake q = false ->
  forall (start : option EpochRow) (prev : EpochRow),
    scanRows nid night start prev ((body ++ [q]) ++ rows)
    = (scanRows nid night start prev (body ++ [q]) ++ scanNight nid night rows)%list.
Proof.
  intros Hq. induction body as [|r body IH]; intros start prev.
  - cbn [app scanRows]. rewrite Hq, scanRows_closed.
    destruct start; [rewrite app_nil_r|]; reflexivity.
  - cbn [app scanRows]. rewrite !IH.
    destruct (isAwake r); [reflexivity|].
    destruct start; [rewrite app_assoc|]; reflexivity.
Qed.

Lemma scanNight_app_sleep nid night pre rows :
  (pre = [] \/ exists body q, pre = (body ++ [q])%list /\ isAwake q = false) ->
  scanNight nid night (pre ++ rows)
  = (scanNight nid night pre ++ scanNight nid night rows)%list.
Proof.
  intros [->|[body [q [-> Hq]]]]; [reflexivity|].
  destruct body as [|r body].
  - cbn [app scanNight]. rewrite Hq. cbn [scanRows]. apply scanRows_closed.
  - cbn [app scanNight]. apply scanRows_app_sleep. exact Hq.
Qed.

(** A maximal run of awake rows, wherever it lies, closes exactly one
    candidate episode, from its first row to its last. *)
Lemma scanNight_run nid night pre first more post :
  (pre = [] \/ exists body q, pre = (body ++ [q])%list /\ isAwake q = false) ->
  Forall (fun r => isAwake r = true) (first :: more) ->
  (post = [] \/ exists q post', post = q :: post' /\ isAwake q = false) ->
  scanNight nid night (pre ++ (first :: more) ++ post)
  = (scanNight nid night pre
     ++ closeEpisode nid night (date first) (date (last more first))
     ++ scanNight nid night post)%list.
Proof.
  intros Hpre Hrun Hpost. rewrite scanNight_app_sleep by exact Hpre. f_equal.
  inversion Hrun as [|? ? Hfirst Hmore]; subst.
  cbn [app scanNight]. rewrite Hfirst, scanRows_run by exact Hmore.
  apply scanRows_close. exact Hpost.
Qed.

Lemma closeEpisode_clip nid night (episodeStart episodeEnd : Z) :
  closeEpisode nid night episodeStart episodeEnd
  = if 600000 <=? Z.min episodeEnd (night_end night)
                  - Z.max episodeStart (night_start night)
    then [ {| ep_id := nid;
              ep_start := Z.max episodeStart (night_start night);
              ep_end := Z.min episodeEnd (night_end night);
              durationSec := (Z.min episodeEnd (night_end night)
                              - Z.max episodeStart (night_start night)) # 1000 |} ]
    else [].
Proof.
  unfold closeEpisode.
  replace (if episodeStart <? night_start night then night_start night else episodeStart)
    with (Z.max episodeStart (night_start night))
    by (destruct (Z.ltb_spec episodeStart (night_start night)); lia).
  replace (if episodeEnd >? night_end night then night_end night else episodeEnd)
    with (Z.min episodeEnd (night_end night))
    by (rewrite Z.gtb_ltb; destruct (Z.ltb_spec (night_end night) episodeEnd); lia).
  unfold Qle_bool. cbn [Qnum Qden].
  replace (600 * Z.pos 1000) with 600000 by reflexivity.
  rewrite Z.mul_1_r. reflexivity.
Qed.

End DetectorFacts.

Section DetectorClaims.

Import Client.






End DetectorClaims.

(** * Further properties *)

(** ** Keys of own-property tables *)

Section TableKeys.

Context {A : Type}.
Implicit Types (k : string) (ps qs : list (string * A)).

Lemma has_key_in k ps : has_key k ps = true <-> In k (map fst ps).
Proof.
  induction ps as [|[k' v'] rest IH]; simpl; [split; [discriminate | tauto]|].
  rewrite orb_true_iff, IH, String.eqb_eq. split; intros [H|H]; auto.
Qed.

Lemma has_key_not_in k ps : has_key k ps = false <-> ~ In k (map fst ps).
Proof.
  rewrite <- has_key_in. destruct (has_key k ps); split; congruence.
Qed.

Lemma keys_replace k (v : A) ps : map fst (replace k v ps) = map fst ps.
Proof.
  induction ps as [|[k' v'] rest IH]; simpl; [reflexivity|].
  destruct (String.eqb k k'); simpl; [reflexivity | rewrite IH; reflexivity].
Qed.

Lemma keys_insert_new_in k (v : A) ps k0 :
  In k0 (map fst (insert_new k v ps)) <-> k0 = k \/ In k0 (map fst ps).
Proof.
  induction ps as [|[k' v'] rest IH]; simpl.
  - destruct (array_index k); simpl; intuition.
  - destruct (array_index k) as [n|].
    + destruct (array_index k') as [n'|]; [destruct (n <? n')|]; simpl;
        try rewrite IH; intuition.
    + change ((k', v') :: rest ++ [(k, v)])%list
        with (((k', v') :: rest) ++ [(k, v)])%list.
      rewrite map_app, in_app_iff. simpl. intuition.
Qed.

Lemma keys_insert_new_nodup k (v : A) ps :
  ~ In k (map fst ps) -> NoDup (map fst ps) ->
  NoDup (map fst (insert_new k v ps)).
Proof.
  induction ps as [|[k' v'] rest IH]; simpl; intros Hk Hnd.
  - destruct (array_index k); simpl; constructor; auto; constructor.
  - inversion Hnd as [|? ? Hk' Hrest]; subst.
    assert (Hcons : NoDup (k :: k' :: map fst rest)).
    { constructor; [simpl; intuition | exact Hnd]. }
    destruct (array_index k) as [n|].
    + destruct (array_index k') as [n'|]; [destruct (n <? n')|]; simpl; auto.
      constructor.
      * rewrite keys_insert_new_in. intuition.
      * apply IH; auto.
    + change ((k', v') :: rest ++ [(k, v)])%list
        with (((k', v') :: rest) ++ [(k, v)])%list.
      rewrite map_app.
      apply (Permutation_NoDup (Permutation_cons_append _ k)). exact Hcons.
Qed.

Lemma keys_set_in k (v : A) ps k0 :
  In k0 (map fst (Js.set k v ps)) <-> k0 = k \/ In k0 (map fst ps).
Proof.
  unfold Js.set. destruct (has_key k ps) eqn:E.
  - rewrite keys_replace. apply has_key_in in E. split; [auto|].
    intros [->|H]; auto.
  - apply keys_insert_new_in.
Qed.

Lemma keys_set_nodup k (v : A) ps :
  NoDup (map fst ps) -> NoDup (map fst (Js.set k v ps)).
Proof.
  intros Hnd. unfold Js.set. destruct (has_key k ps) eqn:E.
  - rewrite keys_replace. exact Hnd.
  - apply keys_insert_new_nodup; [apply has_key_not_in; exact E | exact Hnd].
Qed.

End TableKeys.

Lemma keys_assign_nodup (ps qs : props) :
  NoDup (map fst ps) -> NoDup (map fst (assign ps qs)).
Proof.
  unfold assign. revert ps. induction qs as [|[k v] rest IH]; intros ps H; simpl.
  - exact H.
  - apply IH. apply keys_set_nodup. exact H.
Qed.

Lemma keys_assign_in (ps qs : props) (k : string) :
  In k (map fst (assign ps qs)) <-> In k (map fst qs) \/ In k (map fst ps).
Proof.
  unfold assign. revert ps. induction qs as [|[k' v] rest IH]; intros ps; simpl.
  - tauto.
  - rewrite IH, keys_set_in. simpl. intuition.
Qed.

Lemma keys_delete_in (k k0 : string) (ps : props) :
  In k0 (map fst (Js.delete k ps)) -> In k0 (map fst ps).
Proof.
  induction ps as [|[k' v'] rest IH]; simpl; [tauto|].
  destruct (String.eqb k k'); simpl; intuition.
Qed.

Lemma keys_delete_nodup (k : string) (ps : props) :
  NoDup (map fst ps) ->
  NoDup (map fst (Js.delete k ps)) /\ ~ In k (map fst (Js.delete k ps)).
Proof.
  induction ps as [|[k' v'] rest IH]; simpl; intros Hnd.
  - split; [constructor | tauto].
  - inversion Hnd as [|? ? Hk' Hrest]; subst.
    destruct (String.eqb k k') eqn:E.
    + apply String.eqb_eq in E. subst k'. auto.
    + apply String.eqb_neq in E. destruct (IH Hrest) as [Hnd' Hk].
      simpl. split.
      * constructor; [|exact Hnd']. intros Hin. apply Hk'.
        exact (keys_delete_in _ _ _ Hin).
      * intros [H|H]; [congruence | contradiction].
Qed.

Lemma lookup_delete_other (k k' : string) (ps : props) :
  k <> k' -> lookup k (Js.delete k' ps) = lookup k ps.
Proof.
  intros Hne. induction ps as [|[k0 v0] rest IH]; simpl; [reflexivity|].
  destruct (String.eqb k' k0) eqn:E; simpl.
  - apply String.eqb_eq in E. subst k0.
    destruct (String.eqb k k') eqn:E'; [apply String.eqb_eq in E'; contradiction|].
    reflexivity.
  - destruct (String.eqb k k0); [reflexivity | exact IH].
Qed.

Lemma lookup_absent (k : string) (ps : props) :
  has_key k ps = false -> lookup k ps = VUndefined.
Proof.
  induction ps as [|[k' v'] rest IH]; simpl; [reflexivity|].
  intros H. apply orb_false_iff in H. destruct H as [H1 H2].
  rewrite H1. apply IH. exact H2.
Qed.

Lemma lookup_assign (k : string) (ps qs : props) :
  NoDup (map fst qs) ->
  lookup k (assign ps qs) = if has_key k qs then lookup k qs else lookup k ps.
Proof.
  unfold assign. revert ps. induction qs as [|[k1 v1] rest IH]; intros ps Hnd; simpl.
  - reflexivity.
  - inversion Hnd as [|? ? Hk1 Hrest]; subst. rewrite IH by exact Hrest.
    destruct (String.eqb k k1) eqn:E; simpl.
    + apply String.eqb_eq in E. subst k1.
      apply has_key_not_in in Hk1. rewrite Hk1. apply lookup_set_same.
    + apply String.eqb_neq in E.
      rewrite lookup_set_other by exact E. reflexivity.
Qed.

(** ** More on the order of binary64 numbers *)

Lemma SFcompare_refl (x : spec_float) :
  SFcompare x x = match x with S754_nan => None | _ => Some Eq end.
Proof.
  destruct x as [[|]|[|]| |[|] m e]; try reflexivity; unfold SFcompare;
    rewrite Z.compare_refl, Pos.compare_cont_refl; reflexivity.
Qed.

Lemma SFcompare_none (x y : spec_float) :
  SFcompare x y = None <-> x = S754_nan \/ y = S754_nan.
Proof.
  destruct x as [[|]|[|]| |[|] m1 e1], y as [[|]|[|]| |[|] m2 e2]; cbn;
    split; intros H; try discriminate; try tauto;
    destruct H as [H|H]; discriminate H.
Qed.

Lemma is_nan_spec (x : float) : PrimFloat.is_nan x = true <-> Prim2SF x = S754_nan.
Proof.
  unfold PrimFloat.is_nan. rewrite FloatAxioms.eqb_spec. unfold SFeqb.
  rewrite SFcompare_refl. destruct (Prim2SF x); simpl; split; congruence.
Qed.

(** [a <= b] fails exactly when one side is [NaN] or [b < a]. *)
Lemma leb_false_iff (a b : float) :
  (a <=? b)%float = false <->
  PrimFloat.is_nan a = true \/ PrimFloat.is_nan b = true \/ (b <? a)%float = true.
Proof.
  rewrite !is_nan_spec, FloatAxioms.leb_spec, FloatAxioms.ltb_spec.
  unfold SFleb, SFltb.
  rewrite (SFcompare_antisym (Prim2SF a) (Prim2SF b)).
  pose proof (SFcompare_none (Prim2SF a) (Prim2SF b)) as Hn.
  destruct (SFcompare (Prim2SF a) (Prim2SF b)) as [[| |]|]; simpl; split;
    intros H; try discriminate H; try tauto.
  - destruct H as [H|[H|H]]; try discriminate H;
      assert (E : Some Eq = None) by (apply Hn; auto); discriminate E.
  - destruct H as [H|[H|H]]; try discriminate H;
      assert (E : Some Lt = None) by (apply Hn; auto); discriminate E.
Qed.

(** ** More on the Summary Normalizer *)

Section NormalizerMore.

Context {rt : Runtime}.
Import Normalizer.

Lemma mergedRow_nodup (rawRow : props) :
  NoDup (map fst (mergedRow rawRow)) /\ ~ In "data" (map fst (mergedRow rawRow)).
Proof.
  unfold mergedRow. apply keys_delete_nodup.
  apply keys_assign_nodup, keys_assign_nodup. constructor.
Qed.

(** The normalised row is a well-formed object whatever the input row holds:
    no key occurs twice, the nested [data] object is gone, and the eleven
    fields the normaliser writes are all there. *)
Theorem normalised_row_keys (label : string) (rawRow : props) :
  NoDup (map fst (processSummaryRow label rawRow))
  /\ ~ In "data" (map fst (processSummaryRow label rawRow))
  /\ Forall (fun k => In k (map fst (processSummaryRow label rawRow)))
            [ "startdate"; "enddate"; "lab_id"; "startdate_utc"; "enddate_utc";
              "total_sleep_time_hours"; "sleep_efficiency_percent";
              "snoring_minutes"; "apnea_hypopnea_index"; "night_events";
              "sleep_duration_min" ].
Proof.
  destruct (mergedRow_nodup rawRow) as [Hnd Hdata].
  unfold processSummaryRow. split; [|split].
  - apply keys_assign_nodup. exact Hnd.
  - rewrite keys_assign_in. cbn [map fst].
    intros [H|H]; [|contradiction].
    repeat (destruct H as [H|H]; [discriminate H|]). destruct H.
  - repeat constructor; rewrite keys_assign_in; left; cbn [map fst];
      simpl; tauto.
Qed.

(** Merging the nested [data] object: a field other than [data] is read from
    the nested object when that object has it, and from the row itself
    otherwise. *)
Theorem nested_data_wins (rawRow nested : props) (k : string) :
  NoDup (map fst rawRow) ->
  NoDup (map fst nested) ->
  lookup "data" rawRow = VObj nested ->
  k <> "data" ->
  lookup k (mergedRow rawRow)
  = if has_key k nested then lookup k nested else lookup k rawRow.
Proof.
  intros Hraw Hnested Hdata Hk. unfold mergedRow.
  rewrite lookup_delete_other by exact Hk.
  rewrite Hdata. unfold or_else. cbn [truthy own_entries].
  rewrite lookup_assign by exact Hnested.
  destruct (has_key k nested); [reflexivity|].
  rewrite lookup_assign by exact Hraw.
  destruct (has_key k rawRow) eqn:E; [reflexivity|].
  rewrite (lookup_absent k rawRow E). reflexivity.
Qed.

Lemma nested_data_wins_witness :
  lookup "hr_average"
         (mergedRow
                    [ ("id", VNum 7%float); ("hr_average", VNum 50%float);
                      ("data", VObj [ ("hr_average", VNum 61%float) ]) ])
  = VNum 61%float.
Proof.
  refine (nested_data_wins 
            [ ("id", VNum 7%float); ("hr_average", VNum 50%float);
              ("data", VObj [ ("hr_average", VNum 61%float) ]) ]
            [ ("hr_average", VNum 61%float) ] "hr_average" _ _ eq_refl _).
  - repeat constructor; simpl; intuition discriminate.
  - repeat constructor; simpl; intuition.
  - discriminate.
Defined.

(** A flat row (no [data] key) keeps every field it has. *)
Theorem flat_row_unchanged (rawRow : props) (k : string) :
  NoDup (map fst rawRow) ->
  has_key "data" rawRow = false ->
  lookup k (mergedRow rawRow) = lookup k rawRow.
Proof.
  intros Hraw Hdata. unfold mergedRow.
  rewrite (lookup_absent _ _ Hdata). unfold or_else. cbn [truthy own_entries].
  destruct (String.eqb k "data") eqn:E.
  - apply String.eqb_eq in E. subst k. rewrite (lookup_absent _ _ Hdata).
    apply lookup_absent. apply has_key_not_in. apply keys_delete_nodup.
    apply keys_assign_nodup, keys_assign_nodup. constructor.
  - apply String.eqb_neq in E. rewrite lookup_delete_other by exact E.
    change (assign (assign [] rawRow) []) with (assign [] rawRow).
    rewrite lookup_assign by exact Hraw.
    destruct (has_key k rawRow) eqn:Ek; [reflexivity|].
    rewrite (lookup_absent k rawRow Ek). reflexivity.
Qed.

Lemma flat_row_unchanged_witness :
  lookup "snoring"
         (mergedRow [ ("id", VNum 7%float); ("snoring", VNum 120%float) ])
  = VNum 120%float.
Proof.
  refine (flat_row_unchanged 
            [ ("id", VNum 7%float); ("snoring", VNum 120%float) ] "snoring" _ eq_refl).
  repeat constructor; simpl; intuition discriminate.
Defined.

End NormalizerMore.

Section NormalizerRules.

Context {rt : Runtime}.
Import Normalizer.

Lemma processSummaryRow_field (label : string) (rawRow : props) :
  lookup "sleep_duration_min" (processSummaryRow label rawRow)
  = total_sleep_time_hours (mergedRow rawRow)
  /\ lookup "snoring_minutes" (processSummaryRow label rawRow)
     = snoring_minutes (mergedRow rawRow)
  /\ lookup "lab_id" (processSummaryRow label rawRow) = VStr label
  /\ lookup "startdate" (processSummaryRow label rawRow)
     = VNum (dateNum (lookup "startdate" (mergedRow rawRow))
                     (lookup "w_startdate" (mergedRow rawRow)))
  /\ lookup "startdate_utc" (processSummaryRow label rawRow)
     = date_utc (dateNum (lookup "startdate" (mergedRow rawRow))
                         (lookup "w_startdate" (mergedRow rawRow)))
  /\ lookup "night_events" (processSummaryRow label rawRow)
     = night_events_parsed (mergedRow rawRow).
Proof.
  unfold processSummaryRow, assign. simpl.
  split; [|split; [|split; [|split; [|split]]]]; read_written; reflexivity.
Qed.

(** The normalised apnea-hypopnea index, for any source value: it is [null]
    exactly when the value converted to a number is [NaN] or below zero, and
    otherwise it is that number. *)
Theorem ahi_rule (label : string) (rawRow : props) :
  let n := ToNumber (lookup "apnea_hypopnea_index" (mergedRow rawRow)) in
  let out := lookup "apnea_hypopnea_index" (processSummaryRow label rawRow) in
  (out = VNull <-> PrimFloat.is_nan n = true \/ (n <? 0)%float = true)
  /\ (out <> VNull -> out = VNum n).
Proof.
  cbv zeta. rewrite processSummaryRow_ahi.
  unfold apnea_hypopnea_index, _raw_apnea_hypopnea_index, isNaN.
  set (n := ToNumber (lookup "apnea_hypopnea_index" (mergedRow rawRow))).
  destruct (PrimFloat.is_nan n) eqn:En.
  - replace (0 <=? - (1))%float with false by (vm_compute; reflexivity).
    split; [split; auto | intros H; contradiction H; reflexivity].
  - destruct (0 <=? n)%float eqn:E.
    + split; [|reflexivity]. split; [discriminate|].
      intros [H|H]; [discriminate H|].
      assert (F : (0 <=? n)%float = false)
        by (apply leb_false_iff; right; right; exact H).
      congruence.
    + split; [|intros H; contradiction H; reflexivity].
      split; [|reflexivity]. intros _.
      apply leb_false_iff in E.
      destruct E as [E|[E|E]];
        [vm_compute in E; discriminate E | congruence | right; exact E].
Qed.

(** [sleep_duration_min] holds the same value as [total_sleep_time_hours]:
    hours, not minutes; [snoring_minutes] is the [snoring] seconds divided by
    60, or [null] when [snoring] is no number; [lab_id] is the label. *)
Theorem duration_min_is_hours (label : string) (rawRow : props) :
  lookup "sleep_duration_min" (processSummaryRow label rawRow)
  = lookup "total_sleep_time_hours" (processSummaryRow label rawRow)
  /\ lookup "snoring_minutes" (processSummaryRow label rawRow)
     = match lookup "snoring" (mergedRow rawRow) with
       | VNum x => VNum (x / 60)%float
       | _ => VNull
       end
  /\ lookup "lab_id" (processSummaryRow label rawRow) = VStr label.
Proof.
  destruct (processSummaryRow_field label rawRow) as [H1 [H2 [H3 _]]].
  rewrite H1, H2, H3, processSummaryRow_hours.
  split; [|split]; reflexivity.
Qed.

(** No row is dropped, and a row whose start date is unusable (no string, no
    number, and no prefixed date string to fall back on) keeps the explicit
    markers: [startdate] is [NaN] and [startdate_utc] is the invalid date.  A
    numeric start date other than [NaN], without a prefixed date string, is
    kept as it is and [startdate_utc] is the date of that many seconds. *)
Theorem unusable_date_is_marked (label : string) (summarySeries : list props) :
  List.length (processSummaryData summarySeries label) = List.length summarySeries
  /\ (forall rawRow,
        is_string (lookup "startdate" (mergedRow rawRow)) = false ->
        is_number (lookup "startdate" (mergedRow rawRow)) = false ->
        truthy (lookup "w_startdate" (mergedRow rawRow))
        && is_string (lookup "w_startdate" (mergedRow rawRow)) = false ->
        PrimFloat.is_nan
          (match lookup "startdate" (processSummaryRow label rawRow) with
           | VNum x => x
           | _ => 0%float
           end) = true
        /\ lookup "startdate_utc" (processSummaryRow label rawRow) = VDate None)
  /\ (forall rawRow x,
        lookup "startdate" (mergedRow rawRow) = VNum x ->
        PrimFloat.is_nan x = false ->
        truthy (lookup "w_startdate" (mergedRow rawRow))
        && is_string (lookup "w_startdate" (mergedRow rawRow)) = false ->
        lookup "startdate" (processSummaryRow label rawRow) = VNum x
        /\ lookup "startdate_utc" (processSummaryRow label rawRow)
           = VDate (TimeClip (x * 1000)%float)).
Proof.
  split; [apply length_map|]. split.
  - intros rawRow Hs Hn Hw.
    destruct (processSummaryRow_field label rawRow) as [_ [_ [_ [H1 [H2 _]]]]].
    rewrite H1, H2. unfold dateNum, date_utc. rewrite Hw.
    destruct (lookup "startdate" (mergedRow rawRow)); try discriminate;
      split; vm_compute; reflexivity.
  - intros rawRow x Hx Hnan Hw.
    destruct (processSummaryRow_field label rawRow) as [_ [_ [_ [H1 [H2 _]]]]].
    rewrite H1, H2. unfold dateNum, date_utc. rewrite Hx, Hw, Hnan.
    split; reflexivity.
Qed.

End NormalizerRules.

(** ** More on the Epoch Flattener *)

Section FlattenerMore.

Import Flattener.

Lemma parseInt10_digit (c : ascii) (rest : string) (d : Z) :
  digit_of c = Some d ->
  parseInt10 (String c rest) = digits_prefix (String c rest) None.
Proof.
  destruct c as [[] [] [] [] [] [] [] []]; intros H;
    first [ discriminate H | reflexivity ].
Qed.

(** A key that is a canonical array index is read by [parseInt] as exactly
    that index. *)
Lemma array_index_parseInt (k : string) (n : Z) :
  array_index k = Some n -> parseInt10 k = Some n.
Proof.
  unfold array_index. destruct k as [|c rest]; [discriminate|].
  destruct (all_digits (String c rest)) eqn:Ed; [|discriminate].
  destruct (negb (Ascii.eqb c "0") || String.eqb rest ""); [|discriminate].
  cbn [andb]. cbn [all_digits] in Ed.
  destruct (digit_of c) as [d|] eqn:Ec; [|discriminate].
  rewrite (parseInt10_digit c rest d Ec).
  destruct (digits_prefix (String c rest) None) as [m|]; [|discriminate].
  destruct (m <? 4294967295); [|discriminate]. auto.
Qed.

Lemma epochRow_length (sid : value) (info : SummaryInfo) (seriesItem : props)
      (tsStr : string) :
  (List.length (epochRow sid info seriesItem tsStr) <= 1)%nat.
Proof. unfold epochRow. destruct (parseInt10 tsStr); simpl; lia. Qed.

Lemma flat_map_length_le {A B : Type} (f : A -> list B) (l : list A) :
  (forall a, List.length (f a) <= 1)%nat ->
  (List.length (flat_map f l) <= List.length l)%nat.
Proof.
  intros H. induction l as [|a l IH]; simpl; [lia|].
  rewrite length_app. specialize (H a). lia.
Qed.

(** A segment never yields more samples than its reference field has keys
    (and none without a reference field); when every key of the reference
    field is a canonical array index, as epoch seconds written in decimal
    are, it yields exactly one sample per key, in the order of the keys, with
    the key's number as timestamp. *)
Theorem segment_sample_count (sid : value) (info : SummaryInfo)
        (seriesItem : props) :
  (List.length (processSeriesItem sid info seriesItem)
   <= match refField seriesItem with
      | Some r => List.length (keys (lookup r seriesItem))
      | None => 0
      end)%nat
  /\ (forall r,
        refField seriesItem = Some r ->
        Forall (fun k => array_index k <> None) (keys (lookup r seriesItem)) ->
        map (fun e => Some (timestamp e)) (processSeriesItem sid info seriesItem)
        = map array_index (keys (lookup r seriesItem))).
Proof.
  split.
  - unfold processSeriesItem. destruct (refField seriesItem) as [r|]; [|simpl; lia].
    destruct (_ || _); [simpl; lia|].
    apply flat_map_length_le. intros a. apply epochRow_length.
  - intros r Hr Hkeys. unfold processSeriesItem. rewrite Hr.
    rewrite (isReference_guard _ _ (refField_isReference _ _ Hr)).
    induction Hkeys as [|k rest Hk _ IH]; [reflexivity|].
    cbn [flat_map map]. rewrite map_app, IH. clear IH.
    destruct (array_index k) as [n|] eqn:E; [|contradiction Hk; reflexivity].
    unfold epochRow. rewrite (array_index_parseInt k n E). reflexivity.
Qed.

(** When several summary rows share an id, the samples of that night carry
    the time zone and night events of the last of them. *)
Theorem last_summary_supplies_zone (before after : list props) (s : props)
        (record : SleepEpochRecord) (e : ProcessedEpoch) :
  same_value_zero (lookup "id" s) (sleep_id record) = true ->
  Forall (fun s' => same_value_zero (lookup "id" s') (sleep_id record) = false)
         after ->
  In e (processEpochRecord (before ++ s :: after) record) ->
  timezone e = lookup "timezone" s
  /\ night_events e = lookup "night_events" s
  /\ id e = sleep_id record.
Proof.
  intros Hs Hafter. unfold processEpochRecord.
  assert (Hget : map_get (sleep_id record) (summaryMap (before ++ s :: after))
                 = Some {| info_timezone := lookup "timezone" s;
                           info_night_events := lookup "night_events" s |}).
  { unfold summaryMap. rewrite map_app. cbn [map].
    induction before as [|b before IH]; cbn [map app map_get].
    - rewrite map_get_none.
      + rewrite Hs. reflexivity.
      + intros k' v Hin. apply in_map_iff in Hin.
        destruct Hin as [s' [Heq Hin]]. injection Heq as <- _.
        rewrite Forall_forall in Hafter. apply Hafter. exact Hin.
    - rewrite IH. reflexivity. }
  rewrite Hget. intros Hin. apply in_flat_map in Hin.
  destruct Hin as [seriesItem [_ Hin]].
  unfold processSeriesItem in Hin.
  destruct (refField seriesItem) as [r|]; [|destruct Hin].
  destruct (_ || _); [destruct Hin|].
  apply in_flat_map in Hin. destruct Hin as [tsStr [_ Hin]].
  unfold epochRow in Hin. destruct (parseInt10 tsStr); [|destruct Hin].
  destruct Hin as [<-|[]]. auto.
Qed.

Lemma last_summary_supplies_zone_witness :
  Forall (fun e => timezone e = VStr "Asia/Tokyo")
         (processEpochRecord
            [ [("id", VNum 7%float); ("timezone", VStr "Europe/Paris")];
              [("id", VNum 7%float); ("timezone", VStr "Asia/Tokyo")] ]
            {| sleep_id := VNum 7%float;
               series := [ [("hr", VObj [("100", VNum 60%float)])] ] |}).
Proof.
  apply Forall_forall. intros e H.
  refine (proj1 (last_summary_supplies_zone
                   [ [("id", VNum 7%float); ("timezone", VStr "Europe/Paris")] ] []
                   [("id", VNum 7%float); ("timezone", VStr "Asia/Tokyo")]
                   {| sleep_id := VNum 7%float;
                      series := [ [("hr", VObj [("100", VNum 60%float)])] ] |}
                   e _ _ H)).
  - vm_compute. reflexivity.
  - constructor.
Defined.

End FlattenerMore.

(** ** More on sorting *)

Section SortMore.

Context {A : Type} (key : A -> Z).

Lemma insert_by_perm (x : A) (l : list A) : Permutation (x :: l) (insert_by key x l).
Proof.
  induction l as [|y rest IH]; simpl; [reflexivity|].
  destruct (key y <=? key x); [|reflexivity].
  rewrite perm_swap. constructor. exact IH.
Qed.

Lemma insert_by_ascending (x : A) (l : list A) :
  ascending key l -> ascending key (insert_by key x l).
Proof.
  unfold ascending. induction 1 as [|y rest Hsorted IH Hall]; simpl.
  - repeat constructor.
  - destruct (Z.leb_spec (key y) (key x)).
    + constructor; [exact IH|].
      apply (Permutation_Forall (insert_by_perm x rest)).
      constructor; assumption.
    + constructor; [constructor; assumption|].
      constructor; [lia|].
      eapply Forall_impl; [|exact Hall]. simpl. intros a Ha. lia.
Qed.

Lemma fold_insert_sorts (l acc : list A) :
  ascending key acc ->
  ascending key (fold_left (fun sorted x => insert_by key x sorted) l acc)
  /\ Permutation (acc ++ l)
                 (fold_left (fun sorted x => insert_by key x sorted) l acc).
Proof.
  revert acc. induction l as [|x rest IH]; intros acc Hacc; simpl.
  - rewrite app_nil_r. split; [exact Hacc | reflexivity].
  - destruct (IH (insert_by key x acc) (insert_by_ascending x acc Hacc))
      as [Hs Hp].
    split; [exact Hs|].
    rewrite <- Hp. rewrite <- Permutation_middle.
    change (x :: acc ++ rest)%list with ((x :: acc) ++ rest)%list.
    apply Permutation_app_tail. apply insert_by_perm.
Qed.

Lemma sort_by_ascending_perm (l : list A) :
  ascending key (sort_by key l) /\ Permutation l (sort_by key l).
Proof. apply (fold_insert_sorts l []). constructor. Qed.

(** Whatever order the rows come in, sorting returns the same rows, each
    once, in ascending order of the key. *)
Theorem sort_by_sorts (l : list A) :
  ascending key (sort_by key l) /\ Permutation l (sort_by key l).
Proof. exact (sort_by_ascending_perm l). Qed.

End SortMore.

(** ** More on the Wake-Episode Detector *)

Section DetectorMore.

Import Client.

Lemma closeEpisode_retained (nid : string) (night : Night) (s t : Z) :
  Forall (retained nid night) (closeEpisode nid night s t).
Proof.
  rewrite closeEpisode_clip.
  destruct (Z.leb_spec 600000
              (Z.min t (night_end night) - Z.max s (night_start night)));
    constructor; [|constructor].
  unfold retained. cbn [ep_id ep_start ep_end durationSec].
  repeat split; lia.
Qed.

Lemma scanRows_retained (nid : string) (night : Night) (rows : list EpochRow) :
  forall start prev, Forall (retained nid night) (scanRows nid night start prev rows).
Proof.
  induction rows as [|r rest IH]; intros start prev; cbn [scanRows].
  - destruct start; [apply closeEpisode_retained | constructor].
  - destruct (isAwake r); [apply IH|].
    destruct start; [|apply IH].
    apply Forall_app. split; [apply closeEpisode_retained | apply IH].
Qed.

Lemma scanNight_retained (nid : string) (night : Night) (rows : list EpochRow) :
  Forall (retained nid night) (scanNight nid night rows).
Proof.
  destruct rows as [|r rest]; [constructor|]. apply scanRows_retained.
Qed.

(** Every episode [findWakeEpisodes] returns belongs to a night that has an
    interval, lies inside that interval, and lasts at least 600 seconds; its
    [durationSec] is its length. *)
Theorem episodes_are_retained {rt : Runtime}
        (data : list EpochRow) (summaryData : list SummaryRow) :
  Forall (fun e =>
            exists night,
              find_key (ep_id e) (nightIntervals summaryData) = Some night
              /\ night_start night <= ep_start e
              /\ ep_start e + 600000 <= ep_end e
              /\ ep_end e <= night_end night
              /\ durationSec e = (ep_end e - ep_start e) # 1000)
         (findWakeEpisodes data summaryData).
Proof.
  unfold findWakeEpisodes. destruct (_ =? _)%nat; [constructor|].
  apply Forall_flat_map. apply Forall_forall. intros [k rows] _. cbn [fst snd].
  destruct (find_key k (nightIntervals summaryData)) as [night|] eqn:E;
    [|constructor].
  eapply Forall_impl; [|apply scanNight_retained].
  intros e [Hid H]. exists night. rewrite Hid. auto.
Qed.

(** A night in which no row is awake has no episode. *)
Theorem no_awake_row_no_episode (nid : string) (night : Night)
        (rows : list EpochRow) :
  Forall (fun r => isAwake r = false) rows -> scanNight nid night rows = [].
Proof.
  intros H. destruct H as [|r rest Hr Hrest]; [reflexivity|].
  cbn [scanNight]. rewrite Hr. revert r Hr.
  induction Hrest as [|q rest Hq _ IH]; intros r Hr; cbn [scanRows];
    [reflexivity|].
  rewrite Hq. apply IH. exact Hq.
Qed.

Lemma no_awake_row_no_episode_witness :
  scanNight "night" {| night_start := 0; night_end := 3600000 |}
            [ {| id := VNum 1%float; state := VNum 1%float; timestamp := 60; date := 60000 |};
              {| id := VNum 1%float; state := VNum 2%float; timestamp := 120; date := 120000 |} ]
  = [].
Proof.
  apply no_awake_row_no_episode. repeat constructor.
Defined.

Lemma grouped_single {rt : Runtime} (k : string) (data acc : list EpochRow) :
  Forall (fun r => ToString (id r) = k) data ->
  fold_left
    (fun g row =>
       let k := ToString (id row) in
       match find_key k g with
       | Some rows => Js.set k (rows ++ [row])%list g
       | None => Js.set k [row] g
       end)
    data [(k, acc)]
  = [(k, (acc ++ data)%list)].
Proof.
  intros H. revert acc. induction H as [|r rest Hr _ IH]; intros acc; simpl.
  - rewrite app_nil_r. reflexivity.
  - rewrite Hr. cbn [find_key]. rewrite String.eqb_refl.
    unfold Js.set. cbn [has_key replace]. rewrite String.eqb_refl. cbn [orb].
    rewrite IH, <- app_assoc. reflexivity.
Qed.



End DetectorMore.

(** ** More on the timing layout *)

Section TimingMore.

Import Client.

(** Local noon is 0 and local midnight is 720: an afternoon or evening hour
    counts from noon, a morning hour counts on from midnight. *)
Theorem minutes_from_noon_closed_form (hour minute : Z) :
  0 <= hour <= 23 -> 0 <= minute <= 59 ->
  minutesFromNoon hour minute
  = if hour <? 12 then (hour + 12) * 60 + minute else (hour - 12) * 60 + minute.
Proof.
  intros Hh Hm. unfold minutesFromNoon.
  rewrite Z.rem_mod_nonneg by lia.
  destruct (Z.ltb_spec hour 12).
  - rewrite Z.mod_small by lia. lia.
  - symmetry. apply Z.mod_unique_pos with (q := 1); lia.
Qed.

(** The specification's example: 23:00 is 660 and 07:00 is 1140. *)
Lemma minutes_from_noon_closed_form_witness :
  minutesFromNoon 23 0 = 660 /\ minutesFromNoon 7 0 = 1140.
Proof.
  split.
  - exact (minutes_from_noon_closed_form 23 0 ltac:(lia) ltac:(lia)).
  - exact (minutes_from_noon_closed_form 7 0 ltac:(lia) ltac:(lia)).
Defined.

Lemma minute_of_day (zone : Z -> Z) (t : Z) :
  minutesFromNoon (localHour zone t) (localMinute zone t)
  = ((t + zone t) / 60000 + 720) mod 1440.
Proof.
  unfold minutesFromNoon.
  pose proof (localHour_bounds zone t). pose proof (localMinute_bounds zone t).
  rewrite Z.rem_mod_nonneg by lia.
  unfold localHour, localMinute.
  replace ((t + zone t) / 3600000) with ((t + zone t) / 60000 / 60)
    by (rewrite Z.div_div by lia; reflexivity).
  set (M := (t + zone t) / 60000).
  replace ((M / 60) mod 24 * 60 + M mod 60 - 720 + 1440)
    with (M mod (60 * 24) + 720)
    by (rewrite Z.rem_mul_r by lia; lia).
  change (60 * 24) with 1440.
  rewrite Zplus_mod_idemp_l. reflexivity.
Qed.

(** Count the minutes of the zone's wall clock from its epoch.  When the
    night ends between 0 and 1439 such minutes after it starts, the bar's
    [duration] is exactly that number of minutes, wherever the start falls
    on the axis: the bar does not wrap. *)
Theorem duration_is_elapsed_minutes {rt : Runtime} (tzOn : bool)
        (row : SummaryRow) (rec : TimingRecord) (zone : Z -> Z) :
  In rec (timingRecord tzOn row) ->
  resolveZone (if tzOn then tr_timezone rec else VStr "UTC") = Some zone ->
  0 <= (enddate_utc row + zone (enddate_utc row)) / 60000
       - (startdate_utc row + zone (startdate_utc row)) / 60000 < 1440 ->
  duration rec
  = (enddate_utc row + zone (enddate_utc row)) / 60000
    - (startdate_utc row + zone (startdate_utc row)) / 60000.
Proof.
  intros Hin Hzone Hd. unfold timingRecord in Hin.
  destruct (formatInTimeZoneJS _ _ _) as [yLabel|]; [|destruct Hin].
  destruct (mins_from_noon_js tzOn (field row "startdate_utc") _)
    as [sMin|] eqn:Es; [|destruct Hin].
  destruct (mins_from_noon_js tzOn (field row "enddate_utc") _)
    as [eMin|] eqn:Ee; [|destruct Hin].
  destruct Hin as [<-|[]]. cbn [duration tr_timezone] in *.
  change (field row "startdate_utc") with (VDate (Some (startdate_utc row))) in Es.
  change (field row "enddate_utc") with (VDate (Some (enddate_utc row))) in Ee.
  unfold mins_from_noon_js in Es, Ee. rewrite Hzone in Es, Ee.
  injection Es as <-. injection Ee as <-.
  rewrite !minute_of_day.
  set (Ms := (startdate_utc row + zone (startdate_utc row)) / 60000) in *.
  set (Me := (enddate_utc row + zone (enddate_utc row)) / 60000) in *.
  pose proof (Z.div_mod (Ms + 720) 1440 ltac:(lia)).
  pose proof (Z.div_mod (Me + 720) 1440 ltac:(lia)).
  pose proof (Z.mod_pos_bound (Ms + 720) 1440 ltac:(lia)).
  pose proof (Z.mod_pos_bound (Me + 720) 1440 ltac:(lia)).
  destruct (Z.ltb_spec ((Me + 720) mod 1440) ((Ms + 720) mod 1440)); lia.
Qed.

(** The specification's example in UTC: from 23:00 to 07:00 the next day the
    bar is 480 minutes long. *)
Lemma duration_is_elapsed_minutes_witness :
  Forall (fun rec => duration rec = 480)
         (timingRecord (rt := utc_runtime) false
            {| columns := []; startdate_utc := 82800000; enddate_utc := 111600000 |}).
Proof.
  apply Forall_forall. intros rec H.
  refine (duration_is_elapsed_minutes (rt := utc_runtime) false
            {| columns := []; startdate_utc := 82800000; enddate_utc := 111600000 |}
            rec (fun _ => 0) H eq_refl _).
  vm_compute. split; [discriminate | reflexivity].
Defined.

Lemma flat_map_ascending {A B : Type} (keyA : A -> Z) (keyB : B -> Z)
      (f : A -> list B) (l : list A) :
  (forall a, (List.length (f a) <= 1)%nat) ->
  (forall a b, In b (f a) -> keyB b = keyA a) ->
  ascending keyA l -> ascending keyB (flat_map f l).
Proof.
  intros Hlen Hkey. unfold ascending.
  induction 1 as [|a rest Hsorted IH Hall]; cbn [flat_map]; [constructor|].
  specialize (Hlen a). pose proof (Hkey a) as Ha.
  destruct (f a) as [|b [|b' more]]; cbn [app]; [exact IH | | simpl in Hlen; lia].
  constructor; [exact IH|].
  apply Forall_forall. intros b' Hb'. apply in_flat_map in Hb'.
  destruct Hb' as [a' [Ha' Hb']].
  rewrite (Ha b (or_introl eq_refl)), (Hkey a' b' Hb').
  rewrite Forall_forall in Hall. apply Hall. exact Ha'.
Qed.

(** The timing records come in ascending order of [enddate_utc], at most one
    per summary row. *)
Theorem plotData_is_chronological {rt : Runtime} (tzOn : bool)
        (summaryData : list SummaryRow) :
  ascending tr_enddate_utc (plotData tzOn summaryData)
  /\ (List.length (plotData tzOn summaryData) <= List.length summaryData)%nat.
Proof.
  assert (Hlen : forall row, (List.length (timingRecord tzOn row) <= 1)%nat).
  { intros row. unfold timingRecord.
    destruct (formatInTimeZoneJS _ _ _); [|simpl; lia].
    destruct (mins_from_noon_js tzOn (field row "startdate_utc") _); [|simpl; lia].
    destruct (mins_from_noon_js tzOn (field row "enddate_utc") _); simpl; lia. }
  unfold plotData. split.
  - apply (flat_map_ascending enddate_utc); [exact Hlen | | apply sort_by_ascending_perm].
    intros row rec. unfold timingRecord.
    destruct (formatInTimeZoneJS _ _ _); [|intros []].
    destruct (mins_from_noon_js tzOn (field row "startdate_utc") _); [|intros []].
    destruct (mins_from_noon_js tzOn (field row "enddate_utc") _); [|intros []].
    intros [<-|[]]. reflexivity.
  - rewrite (Permutation_length (proj2 (sort_by_ascending_perm enddate_utc summaryData))).
    apply flat_map_length_le. exact Hlen.
Qed.

End TimingMore.

(** ** Wake bars *)

Section WakeBarFacts.

Import Client Overview.

(** The wake bars are drawn from the episodes of at least ten minutes only,
    each keeping its episode's night and instants.  A bar's length is computed
    with the same wrap rule as a night's bar (the end's minutes, plus 1440
    when they are fewer than the start's, minus the start's) although the code
    writes the rule differently, and it lies in [0, 1440). *)
Theorem wake_bars_use_the_same_wrap {rt : Runtime} (tzOn : bool)
        (summaryData : list SummaryRow) (wakeEpisodes : list WakeEpisode) :
  Forall
    (fun b =>
       (exists w, In w wakeEpisodes
                  /\ Qle_bool (600 # 1) (durationSec w) = true
                  /\ wb_id b = ep_id w
                  /\ wb_start b = ep_start w /\ wb_end b = ep_end w)
       /\ exists sMin eMin,
            mins_from_noon_js tzOn (VDate (Some (wb_start b))) (wb_timezone b)
            = Some sMin
            /\ mins_from_noon_js tzOn (VDate (Some (wb_end b))) (wb_timezone b)
               = Some eMin
            /\ startMin b = sMin
            /\ durationMin b
               = (if eMin <? sMin then eMin + 1440 else eMin) - sMin
            /\ 0 <= durationMin b < 1440)
    (epochPlotData tzOn summaryData wakeEpisodes).
Proof.
  unfold epochPlotData. apply Forall_flat_map. apply Forall_forall.
  intros w Hw. apply filter_In in Hw. destruct Hw as [Hin Hdur].
  unfold wakeBar.
  set (tz := match strmap_get (ep_id w) _ with Some v => _ | None => _ end).
  destruct (mins_from_noon_js tzOn (VDate (Some (ep_start w))) tz)
    as [sMin|] eqn:Es; [|constructor].
  destruct (mins_from_noon_js tzOn (VDate (Some (ep_end w))) tz)
    as [eMin|] eqn:Ee; [|constructor].
  constructor; [|constructor].
  cbn [wb_id wb_start wb_end wb_timezone startMin durationMin].
  split; [exists w; auto|].
  exists sMin, eMin.
  pose proof (mins_from_noon_js_bounds _ _ _ _ Es).
  pose proof (mins_from_noon_js_bounds _ _ _ _ Ee).
  repeat split; try assumption;
    rewrite ?Z.geb_leb;
    destruct (Z.leb_spec sMin eMin), (Z.ltb_spec eMin sMin); lia.
Qed.

End WakeBarFacts.

(** ** More on the statistics *)

Section StatisticsMore.

Import Client.
Local Open Scope float_scope.

(** The unit table: the six stage and bed durations are shown in hours, the
    eight other durations (latencies, wake-up time, WASO, snoring, movement)
    in minutes, the efficiency in percent, and the nineteen remaining fields
    as they are; these four groups are all the fields of the table. *)
Theorem unit_conversion_table (v : float) :
  Forall (fun name => convertUnit name v = v / 3600)
         [ "total_timeinbed"; "total_sleep_time"; "asleepduration";
           "lightsleepduration"; "remsleepduration"; "deepsleepduration" ]
  /\ Forall (fun name => convertUnit name v = v / 60)
            [ "sleep_latency"; "wakeup_latency"; "wakeupduration"; "waso";
              "durationtosleep"; "durationtowakeup"; "snoring";
              "mvt_active_duration" ]
  /\ convertUnit "sleep_efficiency" v = v * 100
  /\ Forall (fun name => convertUnit name v = v)
            [ "nb_rem_episodes"; "apnea_hypopnea_index"; "withings_index";
              "out_of_bed_count"; "hr_average"; "hr_min"; "hr_max";
              "rr_average"; "rr_min"; "rr_max"; "snoringepisodecount";
              "sleep_score"; "night_events"; "mvt_score_avg";
              "chest_movement_rate_average"; "chest_movement_rate_min";
              "chest_movement_rate_max"; "breathing_sounds";
              "breathing_sounds_episode_count" ]
  /\ List.length ALL_DATA_FIELDS = (6 + 8 + 1 + 19)%nat
  /\ Forall (fun name =>
               In name
                  ([ "total_timeinbed"; "total_sleep_time"; "asleepduration";
                     "lightsleepduration"; "remsleepduration"; "deepsleepduration" ]
                   ++ [ "sleep_latency"; "wakeup_latency"; "wakeupduration"; "waso";
                        "durationtosleep"; "durationtowakeup"; "snoring";
                        "mvt_active_duration" ]
                   ++ [ "sleep_efficiency" ]
                   ++ [ "nb_rem_episodes"; "apnea_hypopnea_index"; "withings_index";
                        "out_of_bed_count"; "hr_average"; "hr_min"; "hr_max";
                        "rr_average"; "rr_min"; "rr_max"; "snoringepisodecount";
                        "sleep_score"; "night_events"; "mvt_score_avg";
                        "chest_movement_rate_average"; "chest_movement_rate_min";
                        "chest_movement_rate_max"; "breathing_sounds";
                        "breathing_sounds_episode_count" ])%list)
            ALL_DATA_FIELDS.
Proof.
  split; [repeat constructor|].
  split; [repeat constructor|].
  split; [reflexivity|].
  split; [repeat constructor|].
  split; [reflexivity|].
  unfold ALL_DATA_FIELDS.
  repeat (constructor; [cbn [app In]; tauto|]). constructor.
Qed.

(** In the headline statistics a night whose sleep time is [null] is not
    dropped: it counts as 0 hours.  A night without the value is dropped. *)
Theorem null_counts_as_zero {rt : Runtime} (d : SummaryRow) :
  (headlineValue "total_sleep_time" d = VNull -> durations [d] = [0])
  /\ (headlineValue "total_sleep_time" d = VUndefined -> durations [d] = []).
Proof.
  unfold durations. cbn [map]. split; intros H; rewrite H; vm_compute; reflexivity.
Qed.

Lemma leb_nan_false (x c : float) :
  PrimFloat.is_nan x = true -> (x <=? c) = false.
Proof. intros H. apply leb_false_iff. left. exact H. Qed.

Lemma leb_false_below (x lo hi : float) :
  (lo <? hi) = true -> PrimFloat.is_nan hi = false ->
  (x <=? hi) = false -> (x <=? lo) = false.
Proof.
  intros Hlo Hhi H. apply leb_false_iff in H. destruct H as [H|[H|H]].
  - apply leb_nan_false. exact H.
  - congruence.
  - exact (above_smaller lo hi x Hlo H).
Qed.

(** The apnea-hypopnea classifier answers Severe exactly when its argument is
    not at most 30, which includes [NaN]: an index that is no number is shown
    as Severe, in red. *)
Theorem severe_is_the_default (x : float) :
  (label (getOSASeverityAndColor x) = "Severe" <-> (x <=? 30) = false)
  /\ (PrimFloat.is_nan x = true ->
      getOSASeverityAndColor x = {| label := "Severe"; color := "red" |}
      /\ getSnoringSeverityAndColor x = {| label := "Severe"; color := "red" |}).
Proof.
  assert (C1 : (5 <? 30) = true) by (vm_compute; reflexivity).
  assert (C2 : (15 <? 30) = true) by (vm_compute; reflexivity).
  assert (N : PrimFloat.is_nan 30 = false) by (vm_compute; reflexivity).
  split.
  - unfold getOSASeverityAndColor. split.
    + destruct (x <=? 5); [discriminate|].
      destruct (x <=? 15); [discriminate|].
      destruct (x <=? 30); [discriminate | reflexivity].
    + intros H.
      rewrite (leb_false_below x 5 30 C1 N H), (leb_false_below x 15 30 C2 N H), H.
      reflexivity.
  - intros H. unfold getOSASeverityAndColor, getSnoringSeverityAndColor.
    rewrite !(leb_nan_false x _ H).
    assert (E : (x =? 0) = false).
    { unfold PrimFloat.is_nan in H. rewrite FloatAxioms.eqb_spec in *.
      unfold SFeqb in *. rewrite SFcompare_refl in H.
      destruct (Prim2SF x); try discriminate H. reflexivity. }
    rewrite E. split; reflexivity.
Qed.

End StatisticsMore.

(** ** Filters and the weekday split *)

Section OverviewFacts.

Import Client Overview.

(** The nap filter.  With the box unchecked, or with a threshold that is no
    number, every night is passed on.  Otherwise the nights passed on are
    those, in order, whose sleep time converts to a number at least the
    threshold in seconds; a night without a sleep time is never among them.
    [applyFilters] shows the "no data" message exactly when nothing is left,
    and otherwise hands the same nights to the report ordered by start. *)
Theorem nap_filter {rt : Runtime} (filterToggle : bool) (durationHours : float)
        (fullSummaryData : list SummaryRow) :
  (filterToggle = false \/ PrimFloat.is_nan (durationHours * 3600)%float = true ->
   filteredData filterToggle durationHours fullSummaryData = fullSummaryData)
  /\ (filterToggle = true ->
      PrimFloat.is_nan (durationHours * 3600)%float = false ->
      filteredData filterToggle durationHours fullSummaryData
      = filter (longEnough (durationHours * 3600)%float) fullSummaryData
      /\ Forall (fun d => headlineValue "total_sleep_time" d <> VUndefined)
                (filteredData filterToggle durationHours fullSummaryData))
  /\ match applyFilters filterToggle durationHours fullSummaryData with
     | None => filteredData filterToggle durationHours fullSummaryData = []
     | Some rows =>
         rows <> []
         /\ ascending startdate_utc rows
         /\ Permutation (filteredData filterToggle durationHours fullSummaryData)
                        rows
     end.
Proof.
  split; [|split].
  - unfold filteredData. intros [->|H]; [reflexivity|].
    rewrite H, andb_false_r. reflexivity.
  - intros -> Hnan. unfold filteredData. rewrite Hnan. cbn [andb negb].
    split; [reflexivity|].
    apply Forall_forall. intros d Hd. apply filter_In in Hd.
    destruct Hd as [_ Hd]. intros Hu. unfold longEnough in Hd.
    rewrite Hu in Hd. cbn [ToNumber] in Hd.
    rewrite (proj2 (leb_false_iff _ _)) in Hd; [discriminate Hd|].
    right. left. vm_compute. reflexivity.
  - unfold applyFilters.
    destruct (filteredData filterToggle durationHours fullSummaryData)
      as [|d rest] eqn:E; [reflexivity|].
    cbn [List.length Nat.eqb].
    destruct (sort_by_ascending_perm startdate_utc (d :: rest)) as [Hs Hp].
    split; [|split; assumption].
    intros Hnil. rewrite Hnil in Hp. apply Permutation_sym in Hp.
    exact (Permutation_nil_cons Hp).
Qed.

Lemma numericOnly_partition {A : Type} (p : A -> bool) (f : A -> value)
      (l : list A) :
  Permutation
    (numericOnly (map f l))
    (numericOnly (map f (filter (fun a => negb (p a)) l))
     ++ numericOnly (map f (filter p l))).
Proof.
  unfold numericOnly. induction l as [|a rest IH]; [reflexivity|].
  cbn [map filter flat_map]. destruct (p a); cbn [negb map flat_map].
  - rewrite IH. apply Permutation_app_swap_app.
  - rewrite <- app_assoc. apply Permutation_app_head. exact IH.
Qed.

(** Weekday and weekend averages split the nights: every night with a
    numeric duration enters exactly one of the two lists. *)
Theorem weekday_weekend_partition {rt : Runtime} (validData : list SummaryRow) :
  Permutation
    (numericOnly (map (fun row => field row "total_sleep_time_hours") validData))
    (weekdaysDurations validData ++ weekendsDurations validData).
Proof.
  exact (numericOnly_partition (fun d => isWeekend (enddate_utc d))
           (fun row => field row "total_sleep_time_hours") validData).
Qed.

End OverviewFacts.

(** ** More on report generation *)

Section GeneratorMore.

Context {rt : Runtime}.
Import Generator.

Lemma epochDataById_keys (es : list Flattener.ProcessedEpoch)
      (acc : list (string * list Flattener.ProcessedEpoch)) (k : string) :
  In k (map fst
          (fold_left
             (fun byId e =>
                let k := ToString (Flattener.id e) in
                match find_key k byId with
                | Some rows => Js.set k (rows ++ [e])%list byId
                | None => Js.set k [e] byId
                end)
             es acc)) ->
  In k (map fst acc) \/ exists e, In e es /\ ToString (Flattener.id e) = k.
Proof.
  revert acc. induction es as [|e rest IH]; intros acc; cbn [fold_left].
  - auto.
  - intros H. apply IH in H. destruct H as [H|[e' [Hin He']]].
    + assert (Hk : k = ToString (Flattener.id e) \/ In k (map fst acc)).
      { destruct (find_key (ToString (Flattener.id e)) acc);
          apply keys_set_in in H; exact H. }
      destruct Hk as [->|Hk]; [right; exists e; simpl; auto | auto].
    + right. exists e'. simpl. auto.
Qed.

Lemma plottedNights_keys (summaryData : list props)
      (byId acc : list (string * list Flattener.ProcessedEpoch)) (k : string) :
  In k (map fst
          (fold_left
             (fun plots entry =>
                match find (fun s => String.eqb (ToString (lookup "id" s)) (fst entry))
                           summaryData with
                | Some summaryRow =>
                    if truthy (lookup "timezone" summaryRow)
                    then Js.set (fst entry) (snd entry) plots
                    else plots
                | None => plots
                end)
             byId acc)) ->
  In k (map fst acc)
  \/ (In k (map fst byId)
      /\ exists s, In s summaryData /\ ToString (lookup "id" s) = k
                   /\ truthy (lookup "timezone" s) = true).
Proof.
  revert acc. induction byId as [|entry rest IH]; intros acc; cbn [fold_left].
  - auto.
  - intros H. apply IH in H. destruct H as [H|[Hin Hs]].
    + destruct (find _ summaryData) as [s|] eqn:Ef; [|auto].
      destruct (truthy (lookup "timezone" s)) eqn:Etz; [|auto].
      apply keys_set_in in H. destruct H as [->|H]; [|auto].
      right. apply find_some in Ef. destruct Ef as [Hs Heq].
      apply String.eqb_eq in Heq. split; [simpl; auto|].
      exists s. auto.
    + right. split; [simpl; auto | exact Hs].
Qed.


End GeneratorMore.

(** ** The CSV upload *)

Section UploadFacts.

Context {rt : Runtime} (DateSeconds : value -> float).
Import Upload.

(** The format of an uploaded summary file is decided by its header alone.
    Without a fatal parse error, the upload is refused as of unknown format
    exactly when the header has neither [w_startdate] nor [startdate_utc];
    [w_startdate] is looked for first, and its rows go through the
    normaliser under the label "csv_upload".  Either way one row comes out
    per row of the file. *)
Theorem upload_format (summaryResult : ParseResult)
        (epochResult : option ParseResult) :
  fatalError summaryResult = None ->
  (parseCsvData DateSeconds summaryResult epochResult = inl UnknownFormat <->
   Flattener.includes "w_startdate" (fields summaryResult) = false
   /\ Flattener.includes "startdate_utc" (fields summaryResult) = false)
  /\ (forall csv,
        parseCsvData DateSeconds summaryResult epochResult = inr csv ->
        List.length (summaryData csv) = List.length (data summaryResult)
        /\ (Flattener.includes "w_startdate" (fields summaryResult) = true ->
            summaryData csv
            = Normalizer.processSummaryData
                (map (tempRow DateSeconds) (data summaryResult)) "csv_upload"
            /\ Forall (fun row => lookup "lab_id" row = VStr "csv_upload")
                      (summaryData csv))).
Proof.
  intros Hfatal. unfold parseCsvData. rewrite Hfatal.
  destruct (Flattener.includes "w_startdate" (fields summaryResult)) eqn:Ew.
  - split.
    + split; [|intros [H _]; discriminate H].
      destruct epochResult as [er|]; [destruct (fatalError er)|]; discriminate.
    + intros csv Hcsv.
      assert (Hs : summaryData csv
                   = Normalizer.processSummaryData
                       (map (tempRow DateSeconds) (data summaryResult)) "csv_upload").
      { destruct epochResult as [er|]; [destruct (fatalError er)|];
          try discriminate Hcsv; injection Hcsv as <-; reflexivity. }
      rewrite Hs. unfold Normalizer.processSummaryData. rewrite !length_map.
      split; [reflexivity|]. intros _. split; [reflexivity|].
      apply Forall_map, Forall_map, Forall_forall. intros row _.
      apply processSummaryRow_field.
  - destruct (Flattener.includes "startdate_utc" (fields summaryResult)) eqn:Eu.
    + split.
      * split; [|intros [_ H]; discriminate H].
        destruct epochResult as [er|]; [destruct (fatalError er)|]; discriminate.
      * intros csv Hcsv. split; [|discriminate].
        destruct epochResult as [er|]; [destruct (fatalError er)|];
          try discriminate Hcsv; injection Hcsv as <-; apply length_map.
    + split; [split; auto | discriminate].
Qed.

Lemma stripPrefix_fold (row : props) (entries acc : props) (k : string) :
  Forall (fun kv => targetKey (fst kv) <> k) entries ->
  lookup k (fold_left
              (fun newRow kv => Js.set (targetKey (fst kv)) (lookup (fst kv) row) newRow)
              entries acc)
  = lookup k acc.
Proof.
  intros H. revert acc. induction H as [|kv rest Hkv _ IH]; intros acc; simpl.
  - reflexivity.
  - rewrite IH. apply lookup_set_other. congruence.
Qed.

Lemma lookup_unique (pre post : props) (key : string) (v : value) :
  NoDup (map fst (pre ++ (key, v) :: post)%list) ->
  lookup key (pre ++ (key, v) :: post)%list = v.
Proof.
  induction pre as [|[k0 v0] pre IH]; simpl; intros Hnd.
  - rewrite String.eqb_refl. reflexivity.
  - inversion Hnd as [|? ? Hk0 Hrest]; subst.
    destruct (String.eqb key k0) eqn:E; [|apply IH; exact Hrest].
    apply String.eqb_eq in E. subst k0. exfalso. apply Hk0.
    rewrite map_app, in_app_iff. right. left. reflexivity.
Qed.

(** Renaming the prefixed columns: the value a column's target name (the
    name without [w_]) ends up with is that of the last column of the row
    with that target, so a prefixed column replaces an unprefixed one of the
    same name only when it comes after it. *)
Theorem last_column_wins (pre post : props) (key : string) (v : value) :
  NoDup (map fst (pre ++ (key, v) :: post)%list) ->
  Forall (fun kv => targetKey (fst kv) <> targetKey key) post ->
  lookup (targetKey key) (stripPrefix (pre ++ (key, v) :: post)%list) = v.
Proof.
  intros Hnd Hpost. unfold stripPrefix. rewrite fold_left_app. cbn [fold_left fst].
  rewrite stripPrefix_fold by exact Hpost.
  rewrite lookup_set_same. apply lookup_unique. exact Hnd.
Qed.

Lemma last_column_wins_witness :
  lookup "total_sleep_time"
         (stripPrefix [ ("total_sleep_time", VNum 1%float);
                        ("w_total_sleep_time", VNum 25200%float);
                        ("w_id", VNum 7%float) ])
  = VNum 25200%float.
Proof.
  refine (last_column_wins [ ("total_sleep_time", VNum 1%float) ]
                           [ ("w_id", VNum 7%float) ]
                           "w_total_sleep_time" (VNum 25200%float) _ _).
  - repeat constructor; simpl; intuition discriminate.
  - repeat constructor. discriminate.
Defined.

(** After the date-range filter every summary row left has a valid end date
    inside the range, and, when there are epoch rows, every epoch row left
    belongs to a summary row that is left. *)
Theorem range_filter_keeps_no_orphan (rangeStart rangeEnd : Z) (csv : CsvData) :
  Forall (fun s => exists t, rowDate s = Some t /\ rangeStart <= t <= rangeEnd)
         (summaryData (filterByRange rangeStart rangeEnd csv))
  /\ Forall (fun e =>
               In e (epochData csv)
               /\ exists s, In s (summaryData (filterByRange rangeStart rangeEnd csv))
                            /\ same_value_zero (lookup "id" s) (lookup "id" e) = true)
            (epochData (filterByRange rangeStart rangeEnd csv)).
Proof.
  unfold filterByRange. cbn [summaryData epochData]. split.
  - apply Forall_forall. intros s Hs. apply filter_In in Hs.
    destruct Hs as [_ Hs]. unfold inRange in Hs.
    destruct (rowDate s) as [t|]; [|discriminate].
    exists t. split; [reflexivity|].
    apply andb_true_iff in Hs. lia.
  - destruct (epochData csv) as [|e0 rest] eqn:E; [constructor|].
    cbn [List.length Nat.ltb Nat.leb].
    apply Forall_forall. intros e He. apply filter_In in He.
    destruct He as [Hin He]. split; [exact Hin|].
    apply existsb_exists in He. exact He.
Qed.

End UploadFacts.

(** A file whose header has neither date column. *)
Lemma upload_format_witness :
  Upload.parseCsvData (rt := utc_runtime) (fun _ => PrimFloat.nan)
    {| Upload.errors := []; Upload.fields := ["id"; "start"]; Upload.data := [ [("id", VNum 7%float)] ] |}
    None
  = inl Upload.UnknownFormat.
Proof.
  apply (proj1 (upload_format (rt := utc_runtime) (fun _ => PrimFloat.nan)
                  {| Upload.errors := []; Upload.fields := ["id"; "start"];
                     Upload.data := [ [("id", VNum 7%float)] ] |}
                  None eq_refl)).
  split; reflexivity.
Defined.
